(** * Green Climate Fund job scraper: extraction and feed generation

    A shallow embedding of [gcf_scraper.py].  The rendering environment
    (Selenium) and the markup-parsing library (BeautifulSoup) are external
    collaborators: they enter the model through the interface [Env], every
    call of which may raise.  The program's own control flow (discovery
    strategies, filtering, the cap, per-candidate extraction, the exception
    handlers, feed construction and serialisation) is transcribed from the
    source.

    Python's [str] is modelled by [string], read as the UTF-8 encoding of
    the text: [len] and slices count code points; case folding and
    whitespace are the ASCII ones. *)

From Stdlib Require Import Ascii String DecimalString.
From stdpp Require Import base option list gmap strings.

Local Open Scope string_scope.
Local Open Scope list_scope.

(** ** Python built-ins on strings *)

Module Py.

Definition truthy (s : string) : bool :=
  match s with EmptyString => false | String _ _ => true end.

Definition lower_char (c : ascii) : ascii :=
  let n := nat_of_ascii c in
  if Nat.leb 65 n && Nat.leb n 90 then ascii_of_nat (n + 32) else c.

(** [s.lower()] *)
Fixpoint lower (s : string) : string :=
  match s with
  | EmptyString => EmptyString
  | String c r => String (lower_char c) (lower r)
  end.

(** [s.startswith(p)] *)
Fixpoint startswith (p s : string) : bool :=
  match p, s with
  | EmptyString, _ => true
  | String _ _, EmptyString => false
  | String a p', String b s' => if Ascii.eqb a b then startswith p' s' else false
  end.

(** [sub in s] *)
Fixpoint contains (sub s : string) : bool :=
  startswith sub s ||
  match s with
  | EmptyString => false
  | String _ r => contains sub r
  end.

(** [any(k in s for k in ks)] *)
Definition any_in (ks : list string) (s : string) : bool :=
  existsb (fun k => contains k s) ks.

Definition isspace (c : ascii) : bool :=
  let n := nat_of_ascii c in
  (Nat.leb 9 n && Nat.leb n 13) || (Nat.leb 28 n && Nat.leb n 32).

Fixpoint lstrip (s : string) : string :=
  match s with
  | EmptyString => EmptyString
  | String c r => if isspace c then lstrip r else s
  end.

Fixpoint rstrip (s : string) : string :=
  match s with
  | EmptyString => EmptyString
  | String c r =>
      match rstrip r with
      | EmptyString => if isspace c then EmptyString else String c EmptyString
      | r' => String c r'
      end
  end.

(** [s.strip()] *)
Definition strip (s : string) : string := rstrip (lstrip s).

(** A byte that continues a multi-byte character. *)
Definition continuation (c : ascii) : bool :=
  let n := nat_of_ascii c in Nat.leb 128 n && Nat.leb n 191.

(** [len(s)]: the number of code points, that is of bytes that start a
    character. *)
Fixpoint len (s : string) : nat :=
  match s with
  | EmptyString => O
  | String c r => if continuation c then len r else S (len r)
  end.

(** [s[:n]]: the first [n] code points. *)
Fixpoint slice_to (n : nat) (s : string) : string :=
  match s with
  | EmptyString => EmptyString
  | String c r =>
      if continuation c then String c (slice_to n r)
      else match n with
           | O => EmptyString
           | S n' => String c (slice_to n' r)
           end
  end.

(** The first [n] bytes. *)
Fixpoint take (n : nat) (s : string) : string :=
  match n, s with
  | O, _ => EmptyString
  | _, EmptyString => EmptyString
  | S n', String c r => String c (take n' r)
  end.

Fixpoint drop (n : nat) (s : string) : string :=
  match n, s with
  | O, _ => s
  | _, EmptyString => EmptyString
  | S n', String _ r => drop n' r
  end.

(** [s.split(sep)[-1]] for a one-character separator: the text after the
    last separator, the whole string when there is none. *)
Fixpoint last_segment (sep : ascii) (s : string) : string :=
  match s with
  | EmptyString => EmptyString
  | String c r =>
      if Ascii.eqb c sep then last_segment sep r
      else if contains (String sep EmptyString) r then last_segment sep r
      else s
  end.

(** [s.replace(old, new)] for a non-empty [old]: a left-to-right scan that
    replaces every non-overlapping occurrence.  [skip] counts the characters
    of the occurrence just replaced that are still to be passed over. *)
Fixpoint replace_from (old new : string) (skip : nat) (s : string) : string :=
  match s with
  | EmptyString => EmptyString
  | String c r =>
      match skip with
      | S k => replace_from old new k r
      | O =>
          if startswith old s
          then new +:+ replace_from old new (Nat.pred (String.length old)) r
          else String c (replace_from old new 0 r)
      end
  end.

Definition replace (old new s : string) : string := replace_from old new 0 s.

(** [sep.join(parts)] *)
Definition join (sep : string) (parts : list string) : string :=
  String.concat sep parts.

(** [str(n)] for a non-negative integer *)
Definition str_of_nat (n : nat) : string :=
  NilEmpty.string_of_uint (Nat.to_uint n).

End Py.

(** ** Exceptions and results *)

(** Every exception the model raises is an instance of Python's
    [Exception]; [str(e)] is its message. *)
Inductive exn : Type := Exception (msg : string).

Definition str_of_exn (e : exn) : string := let 'Exception m := e in m.

Inductive res (A : Type) : Type :=
| Ok (a : A)
| Raise (e : exn).
Arguments Ok {A} a.
Arguments Raise {A} e.

Definition is_ok {A} (r : res A) : bool :=
  match r with Ok _ => true | Raise _ => false end.

(** A job record is the Python dict [job_data]. *)
Abbreviation job := (gmap string string).

(** ** The collaborators *)

(** What the program observes of Selenium and BeautifulSoup.  [World] is the
    state of everything behind the driver (browser, network, site); every
    driver command steps it and may raise.  A BeautifulSoup document and the
    tags found in it have type [tag]; text nodes have type [navstr].  The
    lambdas the source passes to [find]/[find_all] are passed as functions;
    [None] is the absent attribute. *)
Class Env : Type := {
  World : Type;
  web_element : Type;
  markup : Type;
  chrome_start : World -> res unit * World;
  driver_get : string -> World -> res unit * World;
  driver_find_elements : string -> World -> res (list web_element) * World;
  element_click : web_element -> World -> res unit * World;
  driver_execute_script : string -> World -> res unit * World;
  driver_page_source : World -> res markup * World;
  driver_quit : World -> res unit * World;
  time_sleep : nat -> World -> World;
  tag : Type;
  navstr : Type;
  BeautifulSoup : markup -> res tag;
  tag_name : tag -> string;
  tag_get : tag -> string -> option string;
  find_all : tag -> list string -> list (string * (option string -> bool)) -> res (list tag);
  find_string : tag -> (string -> bool) -> res (option navstr);
  find_parent : tag -> list string -> res (option tag);
  get_text_strip : tag -> res string;
  navstr_str : navstr -> string;
  navstr_find_parent : navstr -> res (option tag);
  navstr_get_text_strip : navstr -> res string
}.

(** What the run does to the outside, in order. *)
Inductive event : Type :=
| Print (line : string)
| Sleep (seconds : nat)
| ChromeStart
| DriverGet (url : string)
| DriverFindElements (xpath : string)
| ElementClick
| DriverExecuteScript (js : string)
| DriverPageSource
| DriverQuit.

Section Scraper.
Context {E : Env}.

(** The mutable state of a run of [scrape_gcf_jobs]: the world behind the
    driver, what was printed and commanded so far, the list [jobs] and the
    dict [job_data] of the candidate being processed. *)
Record state : Type := mkState {
  world : World;
  trace : list event;
  jobs : list job;
  job_data : job
}.

Definition M (A : Type) : Type := state -> res A * state.

Definition ret {A} (a : A) : M A := fun s => (Ok a, s).

Definition raise {A} (e : exn) : M A := fun s => (Raise e, s).

Definition bind {A B} (m : M A) (k : A -> M B) : M B :=
  fun s => match m s with
           | (Ok a, s') => k a s'
           | (Raise e, s') => (Raise e, s')
           end.

(** [try: m except Exception as e: h e] *)
Definition try_except {A} (m : M A) (h : exn -> M A) : M A :=
  fun s => match m s with
           | (Ok a, s') => (Ok a, s')
           | (Raise e, s') => h e s'
           end.

(** [try: m finally: f] *)
Definition try_finally {A} (m : M A) (f : M unit) : M A :=
  fun s => match m s with
           | (r, s') =>
               match f s' with
               | (Ok _, s'') => (r, s'')
               | (Raise e, s'') => (Raise e, s'')
               end
           end.

Definition lift {A} (r : res A) : M A := fun s => (r, s).

Definition emit (e : event) : M unit :=
  fun s => (Ok tt, mkState (world s) (trace s ++ [e]) (jobs s) (job_data s)).

Definition print (line : string) : M unit := emit (Print line).

(** A driver command: recorded, then run against the world. *)
Definition command {A} (e : event) (f : World -> res A * World) : M A :=
  fun s => let '(r, w) := f (world s) in
           (r, mkState w (trace s ++ [e]) (jobs s) (job_data s)).

Definition sleep (seconds : nat) : M unit :=
  fun s => (Ok tt, mkState (time_sleep seconds (world s))
                           (trace s ++ [Sleep seconds]) (jobs s) (job_data s)).

(** [job_data = {}] *)
Definition new_job_data : M unit :=
  fun s => (Ok tt, mkState (world s) (trace s) (jobs s) ∅).

(** [job_data[k] = v] *)
Definition setitem (k v : string) : M unit :=
  fun s => (Ok tt, mkState (world s) (trace s) (jobs s) (<[k:=v]> (job_data s))).

(** [job_data.get(k)] *)
Definition getopt (k : string) : M (option string) :=
  fun s => (Ok (job_data s !! k), s).

(** [job_data[k]], a [KeyError] when the key is absent *)
Definition getitem (k : string) : M string :=
  fun s => match job_data s !! k with
           | Some v => (Ok v, s)
           | None => (Raise (Exception ("'" +:+ k +:+ "'")), s)
           end.

(** [jobs.append(job_data)] *)
Definition append_job : M unit :=
  fun s => (Ok tt, mkState (world s) (trace s) (jobs s ++ [job_data s]) (job_data s)).

End Scraper.

Declare Scope py_scope.
Delimit Scope py_scope with py.
Notation "x <- m ;; k" := (bind m (fun x => k))
  (at level 20, m at level 99, k at level 200, only parsing) : py_scope.
Notation "m ;; k" := (bind m (fun _ => k))
  (at level 100, k at level 200, only parsing, right associativity) : py_scope.
Local Open Scope py_scope.

(** ** The extractor: [scrape_gcf_jobs] *)

Section Extractor.
Context {E : Env}.

Definition url : string := "https://jobs.greenclimate.fund/en/sites/CX_1001/jobs".

Definition nl : string := String "010"%char EmptyString.

Definition get_job_data : M job := fun s => (Ok (job_data s), s).

Definition get_jobs : M (list job) := fun s => (Ok (jobs s), s).

Fixpoint for_each {A} (body : A -> M unit) (l : list A) : M unit :=
  match l with
  | [] => ret tt
  | x :: r => body x ;; for_each body r
  end.

(** The elements of [l] for which [p] answers [True], in order; the first
    exception raised by [p] ends the traversal. *)
Fixpoint select {A} (p : A -> M bool) (l : list A) : M (list A) :=
  match l with
  | [] => ret []
  | x :: r =>
      b <- p x ;;
      rest <- select p r ;;
      ret (if b then x :: rest else rest)
  end.

Definition truthy_opt (o : option string) : bool :=
  match o with Some v => Py.truthy v | None => false end.

(** [t.find(names, **attrs)]: the first result of [find_all], if any. *)
Definition find (t : tag) (names : list string)
    (attrs : list (string * (option string -> bool))) : res (option tag) :=
  match find_all t names attrs with
  | Ok l => Ok (head l)
  | Raise e => Raise e
  end.

(** [t[k]], a [KeyError] when the attribute is absent *)
Definition tag_index (t : tag) (k : string) : res string :=
  match tag_get t k with
  | Some v => Ok v
  | None => Raise (Exception ("'" +:+ k +:+ "'"))
  end.

(** [href=True] *)
Definition present (x : option string) : bool :=
  match x with Some _ => true | None => false end.

(** [lambda x: x and w in str(x).lower()] *)
Definition attr_has (w : string) (x : option string) : bool :=
  match x with
  | Some v => Py.truthy v && Py.contains w (Py.lower v)
  | None => false
  end.

(** The [href] lambda of strategy 1. *)
Definition job_href (x : option string) : bool :=
  match x with
  | Some v =>
      Py.truthy v &&
      (Py.contains "/requisition" (Py.lower v)
       || Py.contains "/job/" v
       || Py.contains "requisitionid" (Py.lower v)
       || Py.contains "jobdetails" (Py.lower v))
  | None => false
  end.

(** The [class_] lambda of the department lookup. *)
Definition department_class (x : option string) : bool :=
  match x with
  | Some v =>
      Py.truthy v &&
      (Py.contains "department" (Py.lower v) || Py.contains "category" (Py.lower v))
  | None => false
  end.

(** [lambda x: x and any(loc in str(x) for loc in words)] *)
Definition string_has (words : list string) (x : string) : bool :=
  Py.truthy x && Py.any_in words x.

Definition setup_driver : M unit := command ChromeStart chrome_start.

(** *** Candidate discovery *)

Definition strategy1 (soup : tag) : M (list tag) :=
  job_links <- lift (find_all soup ["a"] [("href", job_href)]) ;;
  match job_links with
  | [] => ret []
  | _ :: _ =>
      print ("Found " +:+ Py.str_of_nat (length job_links) +:+ " job requisition links") ;;
      ret job_links
  end.

Definition is_job_card (element : tag) : M bool :=
  title_elem <- lift (find element ["h2"; "h3"; "h4"] [("class", attr_has "title")]) ;;
  link_elem <- lift (find element ["a"] [("href", present)]) ;;
  ret (bool_decide (is_Some title_elem) && bool_decide (is_Some link_elem)).

Definition strategy2 (soup : tag) : M (list tag) :=
  containers <- lift (find_all soup ["div"; "article"; "li"] []) ;;
  job_elements <- select is_job_card containers ;;
  print ("Found " +:+ Py.str_of_nat (length job_elements) +:+ " elements with titles and links") ;;
  ret job_elements.

Definition strategy3 (soup : tag) : M (list tag) :=
  job_elements <- lift (find_all soup ["div"; "article"] [("data-automation-id", attr_has "job")]) ;;
  print ("Found " +:+ Py.str_of_nat (length job_elements) +:+ " job container elements") ;;
  ret job_elements.

Definition discover (soup : tag) : M (list tag) :=
  job_elements <- strategy1 soup ;;
  job_elements <- match job_elements with
                  | [] => strategy2 soup
                  | _ :: _ => ret job_elements
                  end ;;
  match job_elements with
  | [] => strategy3 soup
  | _ :: _ => ret job_elements
  end.

(** *** Filtering *)

Definition skip_keywords : list string :=
  ["sitemap"; "account"; "sign-in"; "profile"; "help"; "about"].

Definition skip_link_keywords : list string := ["sitemap"; "sign-in"; "profile"].

(** [element.get('href', '') if element.name == 'a' else ''] *)
Definition filter_link (element : tag) : string :=
  if String.eqb (tag_name element) "a"
  then default "" (tag_get element "href")
  else "".

(** One turn of the filtering loop: [False] for [continue]. *)
Definition keep (element : tag) : M bool :=
  text <- lift (get_text_strip element) ;;
  let text := Py.lower text in
  let link := filter_link element in
  if Py.any_in skip_keywords text then ret false
  else if Py.any_in skip_link_keywords (Py.lower link) then ret false
  else ret true.

Definition filter_navigation (job_elements : list tag) : M (list tag) :=
  select keep job_elements.

(** *** Per-candidate field extraction *)

Definition origin : string := "https://jobs.greenclimate.fund".

(** [href if href.startswith('http') else f"https://jobs.greenclimate.fund{href}"] *)
Definition absolute (href : string) : string :=
  if Py.startswith "http" href then href else origin +:+ href.

(** The link step; [False] stands for the [continue] of a candidate
    without a link. *)
Definition get_link (element : tag) : M bool :=
  if String.eqb (tag_name element) "a" && truthy_opt (tag_get element "href")
  then
    href <- lift (tag_index element "href") ;;
    setitem "link" (absolute href) ;;
    ret true
  else
    link_elem <- lift (find element ["a"] [("href", present)]) ;;
    match link_elem with
    | Some link_elem =>
        href <- lift (tag_index link_elem "href") ;;
        setitem "link" (absolute href) ;;
        ret true
    | None => ret false
    end.

Definition parent_location_words : list string :=
  ["Remote"; "Hybrid"; "Incheon"; "Korea"; "Republic of Korea"].

Definition scan_child (child : tag) : M unit :=
  text <- lift (get_text_strip child) ;;
  if Py.any_in parent_location_words text then setitem "location" text else ret tt.

Definition get_title (element : tag) : M unit :=
  if String.eqb (tag_name element) "a"
  then
    text <- lift (get_text_strip element) ;;
    setitem "title" text ;;
    parent <- lift (find_parent element ["div"; "article"; "li"]) ;;
    match parent with
    | Some parent =>
        children <- lift (find_all parent ["span"; "div"; "p"] []) ;;
        for_each scan_child children
    | None => ret tt
    end
  else
    title_elem <- lift (find element ["h2"; "h3"; "h4"; "a"; "span"]
                             [("class", attr_has "title")]) ;;
    title_elem <- match title_elem with
                  | None => lift (find element ["a"] [])
                  | Some _ => ret title_elem
                  end ;;
    match title_elem with
    | Some title_elem =>
        text <- lift (get_text_strip title_elem) ;;
        setitem "title" text
    | None =>
        text <- lift (get_text_strip element) ;;
        setitem "title" (Py.slice_to 100 text)
    end.

(** [not job_data.get('title') or len(job_data['title']) < 5
     or job_data['title'].startswith('Position')] *)
Definition needs_detail (jd : job) : bool :=
  match jd !! "title" with
  | None => true
  | Some title =>
      negb (Py.truthy title)
      || Nat.ltb (Py.len title) 5
      || Py.startswith "Position" title
  end.

Definition detail_labels : list string := ["Location:"; "Posting Location"].

(** The body of the [try] of the detail-page detour. *)
Definition fetch_detail : M unit :=
  link <- getitem "link" ;;
  print ("  Fetching details for job " +:+ Py.last_segment "/" link +:+ "...") ;;
  link <- getitem "link" ;;
  command (DriverGet link) (driver_get link) ;;
  sleep 3 ;;
  job_page_source <- command DriverPageSource driver_page_source ;;
  job_soup <- lift (BeautifulSoup job_page_source) ;;
  title_elem <- lift (find job_soup ["h1"] []) ;;
  title_elem <- match title_elem with
                | None => lift (find job_soup ["h2"; "h3"] [("class", attr_has "title")])
                | Some _ => ret title_elem
                end ;;
  match title_elem with
   | Some title_elem =>
       text <- lift (get_text_strip title_elem) ;;
       setitem "title" text
   | None => ret tt
   end ;;
  location_elem <- lift (find_string job_soup (string_has detail_labels)) ;;
  match location_elem with
   | Some location_elem =>
       if Py.truthy (navstr_str location_elem)
       then
         location_parent <- lift (navstr_find_parent location_elem) ;;
         match location_parent with
         | Some location_parent =>
             location_text <- lift (get_text_strip location_parent) ;;
             let location_text :=
               Py.strip (Py.replace "Posting Location" ""
                           (Py.replace "Location:" "" location_text)) in
             if Py.truthy location_text
             then setitem "location" location_text
             else ret tt
         | None => ret tt
         end
       else ret tt
   | None => ret tt
   end ;;
  command (DriverGet url) (driver_get url) ;;
  sleep 2.

(** The [except] of the detour. *)
Definition detail_failed (e : exn) : M unit :=
  print ("  Could not fetch detail page: " +:+ str_of_exn e) ;;
  title <- getopt "title" ;;
  if negb (truthy_opt title)
  then
    link <- getitem "link" ;;
    setitem "title" ("Position " +:+ Py.last_segment "/" link)
  else ret tt.

Definition refine_title : M unit :=
  jd <- get_job_data ;;
  if needs_detail jd then try_except fetch_detail detail_failed else ret tt.

(** What [find] hands back when it may be a tag or a text node. *)
Inductive page_element : Type :=
| IsTag (t : tag)
| IsString (n : navstr).

Definition element_truthy (o : option page_element) : bool :=
  match o with
  | None => false
  | Some (IsTag _) => true
  | Some (IsString n) => Py.truthy (navstr_str n)
  end.

Definition element_text (p : page_element) : res string :=
  match p with
  | IsTag t => get_text_strip t
  | IsString n => navstr_get_text_strip n
  end.

Definition location_words : list string := ["Remote"; "Incheon"; "Korea"; "Hybrid"].

Definition default_location : string := "Green Climate Fund".

Definition get_location (element : tag) : M unit :=
  jd <- get_job_data ;;
  match jd !! "location" with
  | Some _ => ret tt
  | None =>
      location_elem <- lift (find element ["span"; "div"; "p"]
                                  [("class", attr_has "location")]) ;;
      location_elem <- match location_elem with
                       | Some t => ret (Some (IsTag t))
                       | None =>
                           n <- lift (find_string element (string_has location_words)) ;;
                           ret (IsString <$> n)
                       end ;;
      match location_elem with
      | Some p =>
          if element_truthy location_elem
          then text <- lift (element_text p) ;; setitem "location" text
          else setitem "location" default_location
      | None => setitem "location" default_location
      end
  end.

Definition get_department (element : tag) : M unit :=
  dept_elem <- lift (find element ["span"; "div"; "p"] [("class", department_class)]) ;;
  match dept_elem with
  | Some dept_elem =>
      text <- lift (get_text_strip dept_elem) ;;
      setitem "department" text
  | None => setitem "department" ""
  end.

Definition get_pubdate (element : tag) : M unit :=
  date_elem <- lift (find element ["span"; "div"; "time"] [("class", attr_has "date")]) ;;
  match date_elem with
  | Some date_elem =>
      text <- lift (get_text_strip date_elem) ;;
      setitem "pubDate" text
  | None => setitem "pubDate" ""
  end.

Definition description_parts (title location department : string) : list string :=
  [title]
  ++ (if negb (String.eqb location "Not specified") then ["Location: " +:+ location] else [])
  ++ (if Py.truthy department then ["Department: " +:+ department] else []).

Definition description_of (title location department : string) : string :=
  Py.join " | " (description_parts title location department).

Definition make_description : M unit :=
  title <- getitem "title" ;;
  location <- getitem "location" ;;
  department <- getitem "department" ;;
  setitem "description" (description_of title location department).

Definition accept : M unit :=
  title <- getitem "title" ;;
  if Py.truthy title
  then
    link <- getitem "link" ;;
    if Py.truthy link
    then
      append_job ;;
      title <- getitem "title" ;;
      print ("  [OK] " +:+ title)
    else ret tt
  else ret tt.

(** The body of the inner [try] of the candidate loop. *)
Definition extract (element : tag) : M unit :=
  new_job_data ;;
  found <- get_link element ;;
  if found
  then
    get_title element ;;
    refine_title ;;
    get_location element ;;
    get_department element ;;
    get_pubdate element ;;
    make_description ;;
    accept
  else ret tt.

Definition process_element (element : tag) : M unit :=
  try_except (extract element)
    (fun e => print ("  [ERROR] Error processing job element: " +:+ str_of_exn e)).

(** *** The run *)

Definition staffs_xpath : string := "//*[contains(text(), 'Staffs')]".

Definition click_staffs_tab : M unit :=
  try_except
    (print "Attempting to click 'Staffs' tab to load job listings..." ;;
     staffs_button <- command (DriverFindElements staffs_xpath)
                              (driver_find_elements staffs_xpath) ;;
     match staffs_button with
     | b :: _ =>
         command ElementClick (element_click b) ;;
         sleep 5 ;;
         print "Clicked 'Staffs' tab"
     | [] => ret tt
     end)
    (fun e => print ("Could not click Staffs tab: " +:+ str_of_exn e)).

Definition execute_script (js : string) : M unit :=
  command (DriverExecuteScript js) (driver_execute_script js).

(** Lines 111 to 245: from the filter to the end of the outer [try]. *)
Definition process_candidates (job_elements : list tag) : M unit :=
  job_elements <- filter_navigation job_elements ;;
  print ("Processing " +:+ Py.str_of_nat (length job_elements)
         +:+ " potential job listings (after filtering)...") ;;
  for_each process_element (take 50 job_elements) ;;
  jobs <- get_jobs ;;
  print (nl +:+ "Successfully scraped " +:+ Py.str_of_nat (length jobs) +:+ " jobs").

(** The body of the outer [try]. *)
Definition scrape_page : M unit :=
  command (DriverGet url) (driver_get url) ;;
  print "Page loaded, waiting for JavaScript to render..." ;;
  print "Waiting for page content to load..." ;;
  sleep 15 ;;
  click_staffs_tab ;;
  execute_script "window.scrollTo(0, document.body.scrollHeight);" ;;
  sleep 3 ;;
  execute_script "window.scrollTo(0, 0);" ;;
  sleep 2 ;;
  page_source <- command DriverPageSource driver_page_source ;;
  soup <- lift (BeautifulSoup page_source) ;;
  job_elements <- discover soup ;;
  process_candidates job_elements.

Definition scrape_run : M (list job) :=
  print ("Starting scraper for: " +:+ url) ;;
  setup_driver ;;
  try_finally
    (try_except scrape_page
       (fun e => print ("Error during scraping: " +:+ str_of_exn e)))
    (command DriverQuit driver_quit) ;;
  get_jobs.

Definition initial_state (w : World) : state := mkState w [] [] ∅.

Definition scrape_gcf_jobs (w : World) : res (list job) * state :=
  scrape_run (initial_state w).

End Extractor.

(** ** A concrete collaborator: parsed pages as trees *)

(** An instance of [Env] on which the extractor can be run: a page is a tree
    of elements and text nodes, and the site is a function from URLs to the
    page a navigation renders, or to the exception it raises. *)
Module Fixture.

#[warnings="-register-all"]
Inductive node : Type :=
| Element (name : string) (attrs : list (string * string)) (children : list node)
| Text (s : string).

(** A node together with its ancestors, nearest first. *)
Record handle : Type := mkHandle { here : node; above : list node }.

Fixpoint walk (above : list node) (n : node) : list handle :=
  match n with
  | Text _ => []
  | Element _ _ cs =>
      (fix go (cs : list node) : list handle :=
         match cs with
         | [] => []
         | c :: r => mkHandle c (n :: above) :: walk (n :: above) c ++ go r
         end) cs
  end.

(** The descendants of a handle in document order. *)
Definition descendants (h : handle) : list handle := walk (above h) (here h).

Definition name_of (n : node) : string :=
  match n with Element nm _ _ => nm | Text _ => "" end.

Fixpoint assoc (k : string) (l : list (string * string)) : option string :=
  match l with
  | [] => None
  | (k', v) :: r => if String.eqb k k' then Some v else assoc k r
  end.

Definition attr_of (n : node) (k : string) : option string :=
  match n with Element _ a _ => assoc k a | Text _ => None end.

Definition is_element (n : node) : bool :=
  match n with Element _ _ _ => true | Text _ => false end.

Definition name_in (names : list string) (n : node) : bool :=
  existsb (String.eqb (name_of n)) names.

Definition matches (names : list string)
    (attrs : list (string * (option string -> bool))) (h : handle) : bool :=
  is_element (here h) && name_in names (here h)
  && forallb (fun '(k, p) => p (attr_of (here h) k)) attrs.

Definition strings_of (h : handle) : list string :=
  match here h with
  | Text s => [s]
  | Element _ _ _ =>
      omap (fun d => match here d with Text s => Some s | Element _ _ _ => None end)
           (descendants h)
  end.

(** [get_text(strip=True)]: the stripped strings, the empty ones dropped,
    concatenated. *)
Definition text_of (h : handle) : string :=
  String.concat "" (List.filter Py.truthy (Py.strip <$> strings_of h)).

Definition first_string (h : handle) (p : string -> bool) : option handle :=
  head (List.filter (fun d => match here d with
                              | Text s => p s
                              | Element _ _ _ => false
                              end) (descendants h)).

Fixpoint ancestors (above : list node) : list handle :=
  match above with
  | [] => []
  | n :: r => mkHandle n r :: ancestors r
  end.

Definition parent_named (names : list string) (h : handle) : option handle :=
  head (List.filter (fun a => name_in names (here a)) (ancestors (above h))).

Definition document (body : list node) : node := Element "[document]" [] body.

Section Site.
(** What navigating to a URL renders, and whether the library is one of the
    releases in which text nodes have no [get_text]. *)
Variable site : string -> res node.
Variable legacy_strings : bool.

Definition navigate (u : string) (w : node) : res unit * node :=
  match site u with
  | Ok p => (Ok tt, p)
  | Raise e => (Raise e, w)
  end.

Definition string_text (h : handle) : res string :=
  if legacy_strings
  then Raise (Exception "'NavigableString' object has no attribute 'get_text'")
  else Ok (text_of h).

Definition env : Env := {|
  World := node;
  web_element := unit;
  markup := node;
  chrome_start := fun w => (Ok tt, w);
  driver_get := navigate;
  driver_find_elements := fun _ w => (Ok [], w);
  element_click := fun _ w => (Ok tt, w);
  driver_execute_script := fun _ w => (Ok tt, w);
  driver_page_source := fun w => (Ok w, w);
  driver_quit := fun w => (Ok tt, w);
  time_sleep := fun _ w => w;
  tag := handle;
  navstr := handle;
  BeautifulSoup := fun m => Ok (mkHandle m []);
  tag_name := fun h => name_of (here h);
  tag_get := fun h k => attr_of (here h) k;
  find_all := fun h names attrs => Ok (List.filter (matches names attrs) (descendants h));
  find_string := fun h p => Ok (first_string h p);
  find_parent := fun h names => Ok (parent_named names h);
  get_text_strip := fun h => Ok (text_of h);
  navstr_str := fun h => match here h with Text s => s | Element _ _ _ => "" end;
  navstr_find_parent := fun h => Ok (head (ancestors (above h)));
  navstr_get_text_strip := string_text
|}.

End Site.

(** The blank page a fresh browser shows. *)
Definition blank : node := document [].

Definition a (href text : string) : node := Element "a" [("href", href)] [Text text].

End Fixture.

(** ** The feed builder: [generate_rss_feed] *)

Definition dq : string := String "034"%char EmptyString.

(** *** [xml.etree.ElementTree] *)

Module ET.

#[warnings="-register-all"]
Inductive element : Type :=
| Element (tag : string) (attrib : list (string * string))
          (text : option string) (children : list element).

Definition tag_of (e : element) : string := let 'Element t _ _ _ := e in t.
Definition attrib_of (e : element) : list (string * string) := let 'Element _ a _ _ := e in a.
Definition text_of (e : element) : option string := let 'Element _ _ x _ := e in x.
Definition children_of (e : element) : list element := let 'Element _ _ _ c := e in c.

(** [_namespace_map] as the module starts with it. *)
Definition default_namespace_map : list (string * string) :=
  [("http://www.w3.org/XML/1998/namespace", "xml");
   ("http://www.w3.org/1999/xhtml", "html");
   ("http://www.w3.org/1999/02/22-rdf-syntax-ns#", "rdf");
   ("http://schemas.xmlsoap.org/wsdl/", "wsdl");
   ("http://www.w3.org/2001/XMLSchema", "xs");
   ("http://www.w3.org/2001/XMLSchema-instance", "xsi");
   ("http://purl.org/dc/elements/1.1/", "dc")].

Definition is_digit (c : ascii) : bool :=
  let n := nat_of_ascii c in Nat.leb 48 n && Nat.leb n 57.

Fixpoint all_digits (s : string) : bool :=
  match s with
  | EmptyString => true
  | String c r => is_digit c && all_digits r
  end.

(** [re.match(r"ns\d+$", prefix)] *)
Definition reserved_prefix (prefix : string) : bool :=
  Py.startswith "ns" prefix
  && Py.truthy (Py.drop 2 prefix) && all_digits (Py.drop 2 prefix).

Definition register_namespace (prefix uri : string)
    (map : list (string * string)) : res (list (string * string)) :=
  if reserved_prefix prefix
  then Raise (Exception "Prefix format reserved for internal use")
  else Ok (List.filter (fun '(k, v) => negb (String.eqb k uri || String.eqb v prefix)) map
           ++ [(uri, prefix)])%list.

Fixpoint lookup (k : string) (l : list (string * string)) : option string :=
  match l with
  | [] => None
  | (k', v) :: r => if String.eqb k k' then Some v else lookup k r
  end.

(** [s.rsplit("}", 1)] when it has two parts: the text before and after
    the last closing brace. *)
Fixpoint rsplit_brace (s : string) : option (string * string) :=
  match s with
  | EmptyString => None
  | String c r =>
      match rsplit_brace r with
      | Some (u, t) => Some (String c u, t)
      | None => if Ascii.eqb c "}" then Some (EmptyString, r) else None
      end
  end.

(** The namespace of a name in [{uri}local] form. *)
Definition split_qname (qname : string) : res (option (string * string)) :=
  if Py.startswith "{" qname
  then match rsplit_brace (Py.drop 1 qname) with
       | Some p => Ok (Some p)
       | None => Raise (Exception "not enough values to unpack (expected 2, got 1)")
       end
  else Ok None.

(** [add_qname] of [_namespaces]: the table from URIs to prefixes, in the
    order the URIs are met. *)
Definition add_qname (map namespaces : list (string * string)) (qname : string)
    : res (list (string * string)) :=
  match split_qname qname with
  | Raise e => Raise e
  | Ok None => Ok namespaces
  | Ok (Some (uri, _)) =>
      match lookup uri namespaces with
      | Some _ => Ok namespaces
      | None =>
          let prefix := default ("ns" +:+ Py.str_of_nat (length namespaces)) (lookup uri map) in
          if String.eqb prefix "xml" then Ok namespaces
          else Ok (namespaces ++ [(uri, prefix)])%list
      end
  end.

(** The tags and attribute names of a tree in the order of [elem.iter()]. *)
Fixpoint names_of (e : element) : list string :=
  match e with
  | Element t a _ cs =>
      (t :: (fst <$> a)
       ++ (fix go (cs : list element) : list string :=
             match cs with
             | [] => []
             | c :: r => names_of c ++ go r
             end) cs)%list
  end.

Fixpoint add_qnames (map namespaces : list (string * string)) (names : list string)
    : res (list (string * string)) :=
  match names with
  | [] => Ok namespaces
  | q :: r =>
      match add_qname map namespaces q with
      | Ok ns => add_qnames map ns r
      | Raise e => Raise e
      end
  end.

Definition namespaces_of (map : list (string * string)) (e : element)
    : res (list (string * string)) :=
  add_qnames map [] (names_of e).

(** [qnames[name]] *)
Definition qname (map namespaces : list (string * string)) (name : string) : string :=
  match split_qname name with
  | Ok (Some (uri, local)) =>
      match lookup uri namespaces with
      | Some prefix => if Py.truthy prefix then prefix +:+ ":" +:+ local else local
      | None => default "" (lookup uri map) +:+ ":" +:+ local
      end
  | _ => name
  end.

Definition escape_cdata_char (c : ascii) : string :=
  if Ascii.eqb c "&" then "&amp;"
  else if Ascii.eqb c "<" then "&lt;"
  else if Ascii.eqb c ">" then "&gt;"
  else String c EmptyString.

(** [_escape_cdata]: the three replacements, ampersand first, amount to
    one pass over the characters. *)
Fixpoint escape_cdata (s : string) : string :=
  match s with
  | EmptyString => EmptyString
  | String c r => escape_cdata_char c +:+ escape_cdata r
  end.

Definition escape_attrib_char (c : ascii) : string :=
  if Ascii.eqb c "&" then "&amp;"
  else if Ascii.eqb c "<" then "&lt;"
  else if Ascii.eqb c ">" then "&gt;"
  else if Ascii.eqb c "034" then "&quot;"
  else if Ascii.eqb c "013" then "&#13;"
  else if Ascii.eqb c "010" then "&#10;"
  else if Ascii.eqb c "009" then "&#09;"
  else String c EmptyString.

Fixpoint escape_attrib (s : string) : string :=
  match s with
  | EmptyString => EmptyString
  | String c r => escape_attrib_char c +:+ escape_attrib r
  end.

Fixpoint insert_by_prefix (p : string * string) (l : list (string * string))
    : list (string * string) :=
  match l with
  | [] => [p]
  | q :: r => if String.ltb (snd p) (snd q) then p :: l else q :: insert_by_prefix p r
  end.

(** [sorted(namespaces.items(), key=lambda x: x[1])] *)
Definition sorted_by_prefix (l : list (string * string)) : list (string * string) :=
  foldr insert_by_prefix [] l.

Definition xmlns_decl (p : string * string) : string :=
  let '(uri, prefix) := p in
  " xmlns" +:+ (if Py.truthy prefix then ":" +:+ prefix else "")
  +:+ "=" +:+ dq +:+ escape_attrib uri +:+ dq.

Definition attribute (map namespaces : list (string * string)) (p : string * string)
    : string :=
  let '(k, v) := p in
  " " +:+ qname map namespaces k +:+ "=" +:+ dq +:+ escape_attrib v +:+ dq.

Definition concat_map {A} (f : A -> string) (l : list A) : string :=
  String.concat "" (f <$> l).

(** [_serialize_xml]; [decls] are the namespace declarations, written on
    the root only. *)
Fixpoint serialize_xml (map namespaces decls : list (string * string))
    (e : element) : string :=
  match e with
  | Element t a x cs =>
      let tag := qname map namespaces t in
      "<" +:+ tag
      +:+ concat_map xmlns_decl (sorted_by_prefix decls)
      +:+ concat_map (attribute map namespaces) a
      +:+ (if truthy_opt x || negb (bool_decide (cs = []))
           then ">" +:+ (if truthy_opt x then escape_cdata (default "" x) else "")
                +:+ (fix go (cs : list element) : string :=
                       match cs with
                       | [] => ""
                       | c :: r => serialize_xml map namespaces [] c +:+ go r
                       end) cs
                +:+ "</" +:+ tag +:+ ">"
           else " />")
  end.

(** [ET.tostring(e, encoding='unicode')] *)
Definition tostring (map : list (string * string)) (e : element) : res string :=
  match namespaces_of map e with
  | Ok namespaces => Ok (serialize_xml map namespaces namespaces e)
  | Raise e => Raise e
  end.

End ET.

(** *** [xml.dom.minidom] *)

(** [minidom.parseString] on the documents the serialiser above can write:
    elements, attributes in double or single quotes, character data with
    the predefined entities and numeric references, an optional XML
    declaration.  Comments, processing instructions, CDATA sections and
    document types are outside the model and raise. *)
Module Minidom.

#[warnings="-register-all"]
Inductive node : Type :=
| Element (tagName : string) (attributes : list (string * string)) (childNodes : list node)
| Text (data : string).

Inductive raw : Type :=
| RawText (s : string)
| RawTag (s : string).

(** Scanner state: the raw tokens read so far (latest first), the
    characters of the current one (latest first), and, inside a tag, the
    quote that is open. *)
Inductive scan_state : Type :=
| InText (done : list raw) (acc : string)
| InTag (done : list raw) (acc : string) (quote : option ascii).

Fixpoint rev_onto (acc s : string) : string :=
  match acc with
  | EmptyString => s
  | String c r => rev_onto r (String c s)
  end.

Definition flush_text (done : list raw) (acc : string) : list raw :=
  match acc with
  | EmptyString => done
  | String _ _ => RawText (rev_onto acc EmptyString) :: done
  end.

Definition scan_step (st : scan_state) (c : ascii) : scan_state :=
  match st with
  | InText done acc =>
      if Ascii.eqb c "<" then InTag (flush_text done acc) EmptyString None
      else InText done (String c acc)
  | InTag done acc None =>
      if Ascii.eqb c ">" then InText (RawTag (rev_onto acc EmptyString) :: done) EmptyString
      else if Ascii.eqb c "034" || Ascii.eqb c "'" then InTag done (String c acc) (Some c)
      else InTag done (String c acc) None
  | InTag done acc (Some q) =>
      InTag done (String c acc) (if Ascii.eqb c q then None else Some q)
  end.

Fixpoint scan_from (st : scan_state) (s : string) : scan_state :=
  match s with
  | EmptyString => st
  | String c r => scan_from (scan_step st c) r
  end.

Definition scan (s : string) : res (list raw) :=
  match scan_from (InText [] EmptyString) s with
  | InText done acc => Ok (rev (flush_text done acc))
  | InTag _ _ _ => Raise (Exception "unclosed token")
  end.

(** Character data *)

Definition is_xml_space (c : ascii) : bool :=
  Ascii.eqb c " " || Ascii.eqb c "009" || Ascii.eqb c "010" || Ascii.eqb c "013".

Definition legal_char (c : ascii) : bool :=
  Nat.leb 32 (nat_of_ascii c) || is_xml_space c.

Fixpoint all_chars (p : ascii -> bool) (s : string) : bool :=
  match s with
  | EmptyString => true
  | String c r => p c && all_chars p r
  end.

Fixpoint decimal_value (acc : nat) (s : string) : nat :=
  match s with
  | EmptyString => acc
  | String c r => decimal_value (10 * acc + (nat_of_ascii c - 48)) r
  end.

(** The replacement text of the reference whose name is [name]. *)
Definition reference (name : string) : option string :=
  if String.eqb name "amp" then Some "&"
  else if String.eqb name "lt" then Some "<"
  else if String.eqb name "gt" then Some ">"
  else if String.eqb name "quot" then Some dq
  else if String.eqb name "apos" then Some "'"
  else if Py.startswith "#" name && Py.truthy (Py.drop 1 name)
          && ET.all_digits (Py.drop 1 name)
          && Nat.ltb (decimal_value 0 (Py.drop 1 name)) 256
          && legal_char (ascii_of_nat (decimal_value 0 (Py.drop 1 name)))
  then Some (String (ascii_of_nat (decimal_value 0 (Py.drop 1 name))) EmptyString)
  else None.

(** Decoding of character data or of an attribute value: references are
    expanded, line ends are normalised; [ref] holds the characters of the
    reference being read (latest first). *)
Fixpoint decode (attr : bool) (ref : option string) (s : string) : res string :=
  match s with
  | EmptyString =>
      match ref with
      | None => Ok EmptyString
      | Some _ => Raise (Exception "unclosed reference")
      end
  | String c r =>
      match ref with
      | Some name =>
          if Ascii.eqb c ";"
          then match reference (rev_onto name EmptyString), decode attr None r with
               | Some t, Ok d => Ok (t +:+ d)
               | None, _ => Raise (Exception "undefined entity")
               | _, Raise e => Raise e
               end
          else decode attr (Some (String c name)) r
      | None =>
          if Ascii.eqb c "&" then decode attr (Some EmptyString) r
          else if negb (legal_char c) || (attr && Ascii.eqb c "<")
          then Raise (Exception "not well-formed (invalid token)")
          else
            match decode attr None r with
            | Raise e => Raise e
            | Ok d =>
                if Ascii.eqb c "013"
                then Ok (match r with
                         | String "010" _ => d
                         | _ => String (if attr then " " else "010")%char d
                         end)
                else if attr && is_xml_space c then Ok (String " " d)
                else Ok (String c d)
            end
      end
  end.

(** Tags *)

Inductive token : Type :=
| TStart (name : string) (attrs : list (string * string)) (empty : bool)
| TEnd (name : string)
| TText (data : string).

Fixpoint span (p : ascii -> bool) (s : string) : string * string :=
  match s with
  | EmptyString => (EmptyString, EmptyString)
  | String c r =>
      if p c then let '(a, b) := span p r in (String c a, b)
      else (EmptyString, s)
  end.

Definition skip_space (s : string) : string := snd (span is_xml_space s).

Definition is_letter (c : ascii) : bool :=
  let n := nat_of_ascii c in
  (Nat.leb 65 n && Nat.leb n 90) || (Nat.leb 97 n && Nat.leb n 122).

Definition name_start (c : ascii) : bool :=
  is_letter c || Ascii.eqb c "_" || Ascii.eqb c ":" || Nat.leb 128 (nat_of_ascii c).

Definition name_char (c : ascii) : bool :=
  name_start c || ET.is_digit c || Ascii.eqb c "." || Ascii.eqb c "-".

Definition valid_name (s : string) : bool :=
  match s with
  | EmptyString => false
  | String c r => name_start c && all_chars name_char r
  end.

Definition has_key (k : string) (l : list (string * string)) : bool :=
  existsb (fun p => String.eqb k (fst p)) l.

(** The attributes of a start tag, after its name: the pairs in document
    order and whether the tag closes itself. *)
Fixpoint attributes_of (fuel : nat) (acc : list (string * string)) (s : string)
    : res (list (string * string) * bool) :=
  match fuel with
  | O => Raise (Exception "not well-formed (invalid token)")
  | S fuel' =>
      let s' := skip_space s in
      if String.eqb s' "" then Ok (rev acc, false)
      else if String.eqb s' "/" then Ok (rev acc, true)
      else if String.eqb s' s then Raise (Exception "not well-formed (invalid token)")
      else
        let '(k, r1) := span name_char s' in
        match skip_space r1 with
        | String "=" r2 =>
            match skip_space r2 with
            | String q r3 =>
                if negb (Ascii.eqb q "034" || Ascii.eqb q "'") || negb (valid_name k)
                then Raise (Exception "not well-formed (invalid token)")
                else
                  let '(v, r4) := span (fun c => negb (Ascii.eqb c q)) r3 in
                  match r4, decode true None v with
                  | String _ r5, Ok v' =>
                      if has_key k acc then Raise (Exception "duplicate attribute")
                      else attributes_of fuel' ((k, v') :: acc) r5
                  | _, Raise e => Raise e
                  | EmptyString, _ => Raise (Exception "not well-formed (invalid token)")
                  end
            | EmptyString => Raise (Exception "not well-formed (invalid token)")
            end
        | _ => Raise (Exception "not well-formed (invalid token)")
        end
  end.

Definition token_of (r : raw) : res token :=
  match r with
  | RawText s =>
      match decode false None s with
      | Ok d => Ok (TText d)
      | Raise e => Raise e
      end
  | RawTag s =>
      match s with
      | String "/" r =>
          let '(n, rest) := span name_char r in
          if valid_name n && String.eqb (skip_space rest) ""
          then Ok (TEnd n)
          else Raise (Exception "not well-formed (invalid token)")
      | String "?" _ | String "!" _ =>
          Raise (Exception "construct outside the model")
      | _ =>
          let '(n, rest) := span name_char s in
          if valid_name n
          then match attributes_of (S (String.length rest)) [] rest with
               | Ok (a, e) => Ok (TStart n a e)
               | Raise e => Raise e
               end
          else Raise (Exception "not well-formed (invalid token)")
      end
  end.

Fixpoint tokens_of (l : list raw) : res (list token) :=
  match l with
  | [] => Ok []
  | r :: rest =>
      match token_of r, tokens_of rest with
      | Ok t, Ok ts => Ok (t :: ts)
      | Raise e, _ => Raise e
      | _, Raise e => Raise e
      end
  end.

(** An optional XML declaration at the very start is dropped. *)
Definition without_declaration (l : list raw) : list raw :=
  match l with
  | RawTag s :: rest =>
      if Py.startswith "?xml" s && String.eqb (Py.take 1 (Py.drop (Nat.pred (String.length s)) s)) "?"
      then rest else l
  | _ => l
  end.

(** Tree construction *)

(** An element that is still open: its name, attributes, the namespace
    prefixes in scope and its children so far, latest first. *)
Record frame : Type := mkFrame {
  f_name : string;
  f_attrs : list (string * string);
  f_bound : list string;
  f_children : list node
}.

Definition add_child (n : node) (f : frame) : frame :=
  mkFrame (f_name f) (f_attrs f) (f_bound f) (n :: f_children f).

Definition is_xmlns (k : string) : bool :=
  String.eqb k "xmlns" || Py.startswith "xmlns:" k.

Definition declared (attrs : list (string * string)) : list string :=
  omap (fun p => if Py.startswith "xmlns:" (fst p) then Some (Py.drop 6 (fst p)) else None) attrs.

Definition prefix_of (name : string) : option string :=
  if Py.contains ":" name then Some (fst (span (fun c => negb (Ascii.eqb c ":")) name)) else None.

Definition prefix_bound (bound : list string) (name : string) : bool :=
  match prefix_of name with
  | None => true
  | Some p => String.eqb p "xml" || existsb (String.eqb p) bound
  end.

Definition names_bound (bound : list string) (n : string) (a : list (string * string)) : bool :=
  prefix_bound bound n
  && forallb (fun p => is_xmlns (fst p) || prefix_bound bound (fst p)) a.

(** Namespace declarations come first among the attributes of the node. *)
Definition ordered (a : list (string * string)) : list (string * string) :=
  (List.filter (fun p => is_xmlns (fst p)) a
   ++ List.filter (fun p => negb (is_xmlns (fst p))) a)%list.

Fixpoint build (toks : list token) (stack : list frame) (root : option node)
    : res node :=
  match toks with
  | [] =>
      match stack, root with
      | [], Some r => Ok r
      | [], None => Raise (Exception "no element found")
      | _ :: _, _ => Raise (Exception "no element found")
      end
  | TText d :: rest =>
      match stack with
      | [] => if all_chars is_xml_space d then build rest [] root
              else Raise (Exception "syntax error")
      | f :: fs => build rest (add_child (Text d) f :: fs) root
      end
  | TStart n a e :: rest =>
      let bound := (declared a ++ match stack with [] => [] | f :: _ => f_bound f end)%list in
      if negb (names_bound bound n a) then Raise (Exception "unbound prefix")
      else
        match stack, root with
        | [], Some _ => Raise (Exception "junk after document element")
        | [], None =>
            if e then build rest [] (Some (Element n (ordered a) []))
            else build rest [mkFrame n (ordered a) bound []] None
        | f :: fs, _ =>
            if e then build rest (add_child (Element n (ordered a) []) f :: fs) root
            else build rest (mkFrame n (ordered a) bound [] :: stack) root
        end
  | TEnd n :: rest =>
      match stack with
      | [] => Raise (Exception "not well-formed (invalid token)")
      | f :: fs =>
          if String.eqb n (f_name f)
          then
            let el := Element (f_name f) (f_attrs f) (rev (f_children f)) in
            match fs with
            | [] => build rest [] (Some el)
            | p :: ps => build rest (add_child el p :: ps) root
            end
          else Raise (Exception "mismatched tag")
      end
  end.

(** [minidom.parseString(s)]: the document element. *)
Definition parseString (s : string) : res node :=
  match scan s with
  | Raise e => Raise e
  | Ok raws =>
      match tokens_of (without_declaration raws) with
      | Raise e => Raise e
      | Ok toks => build toks [] None
      end
  end.

(** Writing *)

Definition write_data_char (c : ascii) : string :=
  if Ascii.eqb c "&" then "&amp;"
  else if Ascii.eqb c "<" then "&lt;"
  else if Ascii.eqb c "034" then "&quot;"
  else if Ascii.eqb c ">" then "&gt;"
  else String c EmptyString.

(** [_write_data] *)
Fixpoint write_data (s : string) : string :=
  match s with
  | EmptyString => EmptyString
  | String c r => write_data_char c +:+ write_data r
  end.

Definition write_attribute (p : string * string) : string :=
  " " +:+ fst p +:+ "=" +:+ dq +:+ write_data (snd p) +:+ dq.

(** [node.writexml(writer, indent, addindent, newl)] *)
Fixpoint writexml (indent addindent newl : string) (n : node) : string :=
  match n with
  | Text d => write_data (indent +:+ d +:+ newl)
  | Element t a cs =>
      indent +:+ "<" +:+ t +:+ ET.concat_map write_attribute a
      +:+ match cs with
          | [] => "/>" +:+ newl
          | [Text d] => ">" +:+ write_data d +:+ "</" +:+ t +:+ ">" +:+ newl
          | _ =>
              ">" +:+ newl
              +:+ (fix go (cs : list node) : string :=
                     match cs with
                     | [] => ""
                     | c :: r => writexml (indent +:+ addindent) addindent newl c +:+ go r
                     end) cs
              +:+ indent +:+ "</" +:+ t +:+ ">" +:+ newl
          end
  end.

(** [dom.toprettyxml(indent)] of the document whose element is [n] *)
Definition toprettyxml (indent : string) (n : node) : string :=
  "<?xml version=" +:+ dq +:+ "1.0" +:+ dq +:+ " ?>" +:+ nl
  +:+ writexml "" indent nl n.

End Minidom.

(** *** Time *)

Inductive weekday : Type := Mon | Tue | Wed | Thu | Fri | Sat | Sun.

Inductive month : Type :=
  Jan | Feb | Mar | Apr | May | Jun | Jul | Aug | Sep | Oct | Nov | Dec.

(** What [datetime.now(timezone.utc)] returns. *)
Record datetime : Type := mkDatetime {
  dt_weekday : weekday;
  dt_day : nat;
  dt_month : month;
  dt_year : nat;
  dt_hour : nat;
  dt_minute : nat;
  dt_second : nat
}.

Definition weekday_name (d : weekday) : string :=
  match d with
  | Mon => "Mon" | Tue => "Tue" | Wed => "Wed" | Thu => "Thu"
  | Fri => "Fri" | Sat => "Sat" | Sun => "Sun"
  end.

Definition month_name (m : month) : string :=
  match m with
  | Jan => "Jan" | Feb => "Feb" | Mar => "Mar" | Apr => "Apr"
  | May => "May" | Jun => "Jun" | Jul => "Jul" | Aug => "Aug"
  | Sep => "Sep" | Oct => "Oct" | Nov => "Nov" | Dec => "Dec"
  end.

(** Two digits, zero-padded. *)
Definition pad2 (n : nat) : string :=
  if Nat.ltb n 10 then "0" +:+ Py.str_of_nat n else Py.str_of_nat n.

(** [now.strftime('%a, %d %b %Y %H:%M:%S +0000')] *)
Definition strftime (now : datetime) : string :=
  weekday_name (dt_weekday now) +:+ ", " +:+ pad2 (dt_day now) +:+ " "
  +:+ month_name (dt_month now) +:+ " " +:+ Py.str_of_nat (dt_year now) +:+ " "
  +:+ pad2 (dt_hour now) +:+ ":" +:+ pad2 (dt_minute now) +:+ ":"
  +:+ pad2 (dt_second now) +:+ " +0000".

(** *** The feed *)

Definition atom_uri : string := "http://www.w3.org/2005/Atom".

Definition text_element (tag text : string) : ET.element :=
  ET.Element tag [] (Some text) [].

(** One [item]; the [except] around the [pubDate] assignment cannot be
    reached, the key being present when [job.get('pubDate')] is true. *)
Definition item_of (j : job) : ET.element :=
  ET.Element "item" [] None
    ([text_element "title" (default "Untitled Position" (j !! "title"));
      text_element "link" (default "" (j !! "link"));
      text_element "description" (default "" (j !! "description"));
      ET.Element "guid" [("isPermaLink", "true")] (Some (default "" (j !! "link"))) []]
     ++ (if truthy_opt (j !! "pubDate")
         then [text_element "pubDate" (default "" (j !! "pubDate"))]
         else []))%list.

Definition channel_of (jobs : list job) (now : datetime) : ET.element :=
  ET.Element "channel" [] None
    ([text_element "title" "Green Climate Fund Jobs";
      text_element "link" "https://jobs.greenclimate.fund/en/sites/CX_1001/jobs";
      text_element "description" "Job listings from Green Climate Fund";
      text_element "language" "en-us";
      ET.Element ("{" +:+ atom_uri +:+ "}link")
        [("href", "https://cinfoposte.github.io/gcf-jobs/gcf_jobs.xml");
         ("rel", "self");
         ("type", "application/rss+xml")] None [];
      text_element "lastBuildDate" (strftime now)]
     ++ (item_of <$> jobs))%list.

Definition rss_of (jobs : list job) (now : datetime) : ET.element :=
  ET.Element "rss" [("version", "2.0")] None [channel_of jobs now].

Definition xmlns_atom : string := "xmlns:atom=" +:+ dq.

(** The text after an opening quote up to and including the closing one:
    its length, if the quote is closed. *)
Definition quoted_length (s : string) : option nat :=
  let '(v, r) := Minidom.span (fun c => negb (Ascii.eqb c "034")) s in
  match r with
  | String _ _ => Some (S (String.length v))
  | EmptyString => None
  end.

(** The length of the match of
    [xmlns:atom="[^"]*"\s+xmlns:atom="[^"]*"] at the start of [s]. *)
Definition match_duplicate (s : string) : option nat :=
  if Py.startswith xmlns_atom s
  then
    let s1 := Py.drop 12 s in
    match quoted_length s1 with
    | None => None
    | Some n1 =>
        let '(ws, s3) := Minidom.span Py.isspace (Py.drop n1 s1) in
        if Py.truthy ws && Py.startswith xmlns_atom s3
        then match quoted_length (Py.drop 12 s3) with
             | Some n2 => Some (12 + n1 + String.length ws + 12 + n2)
             | None => None
             end
        else None
    end
  else None.

(** [re.sub] of that pattern by the single declaration. *)
Fixpoint sub_duplicate_from (skip : nat) (s : string) : string :=
  match s with
  | EmptyString => EmptyString
  | String c r =>
      match skip with
      | S k => sub_duplicate_from k r
      | O =>
          match match_duplicate s with
          | Some n => xmlns_atom +:+ atom_uri +:+ dq +:+ sub_duplicate_from (Nat.pred n) r
          | None => String c (sub_duplicate_from 0 r)
          end
      end
  end.

Definition sub_duplicate (s : string) : string := sub_duplicate_from 0 s.

(** Lines 320 to 327: the prefix fix-ups on the serialised text. *)
Definition fix_prefixes (xml_string : string) : string :=
  let xml_string := Py.replace "xmlns:ns0=" "xmlns:atom=" xml_string in
  let xml_string := Py.replace "<ns0:" "<atom:" xml_string in
  let xml_string := Py.replace "</ns0:" "</atom:" xml_string in
  sub_duplicate xml_string.

(** Lines 258 to 327: [xml_string] as it is handed to [minidom]. *)
Definition xml_string_of (jobs : list job) (now : datetime) : res string :=
  match ET.register_namespace "atom" atom_uri ET.default_namespace_map with
  | Raise e => Raise e
  | Ok map =>
      match ET.tostring map (rss_of jobs now) with
      | Raise e => Raise e
      | Ok xml_string => Ok (fix_prefixes xml_string)
      end
  end.

(** [s.split('\n')] *)
Fixpoint split_lines (s : string) : list string :=
  match s with
  | EmptyString => [EmptyString]
  | String c r =>
      if Ascii.eqb c "010" then EmptyString :: split_lines r
      else match split_lines r with
           | l :: ls => String c l :: ls
           | [] => [String c EmptyString]
           end
  end.

(** ['\n'.join([line for line in pretty_xml.split('\n') if line.strip()])] *)
Definition drop_blank_lines (pretty_xml : string) : string :=
  Py.join nl (List.filter (fun line => Py.truthy (Py.strip line)) (split_lines pretty_xml)).

(** The text written to the output file. *)
Definition feed_text (jobs : list job) (now : datetime) : res string :=
  match xml_string_of jobs now with
  | Raise e => Raise e
  | Ok xml_string =>
      match Minidom.parseString xml_string with
      | Raise e => Raise e
      | Ok dom => Ok (drop_blank_lines (Minidom.toprettyxml "  " dom))
      end
  end.

(** The files on disk, and the paths that cannot be opened for writing. *)
Record disk : Type := mkDisk {
  files : gmap string string;
  denied : gset string
}.

(** [with open(path, 'w', encoding='utf-8') as f: f.write(text)] *)
Definition write_file (path text : string) (d : disk) : res unit * disk :=
  if bool_decide (path ∈ denied d)
  then (Raise (Exception ("[Errno 13] Permission denied: '" +:+ path +:+ "'")), d)
  else (Ok tt, mkDisk (<[path := text]> (files d)) (denied d)).

(** What a part of the run leaves behind: its result, what it printed and
    commanded, and the disk. *)
Record outcome (A : Type) : Type := mkOutcome {
  result : res A;
  output : list event;
  disk_after : disk
}.
Arguments mkOutcome {A} result output disk_after.
Arguments result {A} o.
Arguments output {A} o.
Arguments disk_after {A} o.

Definition generate_rss_feed_to (output_file : string) (jobs : list job)
    (now : datetime) (d : disk) : outcome unit :=
  match feed_text jobs now with
  | Raise e => mkOutcome (Raise e) [] d
  | Ok pretty_xml =>
      match write_file output_file pretty_xml d with
      | (Raise e, d') => mkOutcome (Raise e) [] d'
      | (Ok _, d') =>
          mkOutcome (Ok tt)
            [Print (nl +:+ "[SUCCESS] RSS feed generated: " +:+ output_file);
             Print ("  Total jobs in feed: " +:+ Py.str_of_nat (length jobs))]
            d'
      end
  end.

(** [generate_rss_feed(jobs)] with the default [output_file]. *)
Definition generate_rss_feed (jobs : list job) (now : datetime) (d : disk)
    : outcome unit :=
  generate_rss_feed_to "gcf_jobs.xml" jobs now d.

(** ** The entry point *)

Fixpoint repeat_string (s : string) (n : nat) : string :=
  match n with
  | O => EmptyString
  | S n' => s +:+ repeat_string s n'
  end.

Definition rule : event := Print (repeat_string "=" 60).

Section Main.
Context {E : Env}.

Definition main (w : World) (now : datetime) (d : disk) : outcome unit :=
  let banner := [rule; Print "Green Climate Fund Job Scraper"; rule] in
  match scrape_gcf_jobs w with
  | (Raise e, s) => mkOutcome (Raise e) (banner ++ trace s) d
  | (Ok jobs, s) =>
      match jobs with
      | _ :: _ =>
          let o := generate_rss_feed jobs now d in
          match result o with
          | Raise e => mkOutcome (Raise e) (banner ++ trace s ++ output o) (disk_after o)
          | Ok _ =>
              mkOutcome (Ok tt)
                (banner ++ trace s ++ output o
                 ++ [Print (nl +:+ "[SUCCESS] Scraping completed successfully!"); rule])
                (disk_after o)
          end
      | [] =>
          mkOutcome (Ok tt)
            (banner ++ trace s
             ++ [Print (nl +:+ "[ERROR] No jobs found. Please check the website structure."); rule])
            d
      end
  end.

End Main.

(** * Properties *)

#[local] Arguments String.append !s1 s2 : simpl nomatch.

(** ** Reasoning about runs *)

Section Runs.
Context {E : Env}.

Lemma bind_ok {A B} (m : M A) (k : A -> M B) s a s1 :
  m s = (Ok a, s1) -> bind m k s = k a s1.
Proof. intros H. unfold bind. rewrite H. reflexivity. Qed.

Lemma bind_raise {A B} (m : M A) (k : A -> M B) s e s1 :
  m s = (Raise e, s1) -> bind m k s = (Raise e, s1).
Proof. intros H. unfold bind. rewrite H. reflexivity. Qed.

(** [s'] has the jobs of [s] followed by records that satisfy [P]. *)
Definition extends (P : job -> Prop) (s s' : state) : Prop :=
  exists l, jobs s' = jobs s ++ l /\ Forall P l.

(** A computation that only ever appends records satisfying [P]. *)
Definition appends_only {A} (P : job -> Prop) (m : M A) : Prop :=
  forall s, extends P s (m s).2.

Lemma extends_refl P s s' : jobs s' = jobs s -> extends P s s'.
Proof. intros H. exists []. rewrite H, app_nil_r. auto. Qed.

Lemma extends_trans P s1 s2 s3 :
  extends P s1 s2 -> extends P s2 s3 -> extends P s1 s3.
Proof.
  intros (l1 & H1 & F1) (l2 & H2 & F2). exists (l1 ++ l2). split.
  - rewrite H2, H1, app_assoc. reflexivity.
  - apply Forall_app. auto.
Qed.

Lemma ao_ret {A} P (a : A) : appends_only P (ret a).
Proof. intros s. apply extends_refl. reflexivity. Qed.

Lemma ao_lift {A} P (r : res A) : appends_only P (lift r).
Proof. intros s. apply extends_refl. reflexivity. Qed.

Lemma ao_bind {A B} P (m : M A) (k : A -> M B) :
  appends_only P m -> (forall a, appends_only P (k a)) -> appends_only P (bind m k).
Proof.
  intros Hm Hk s. unfold bind. specialize (Hm s).
  destruct (m s) as [[a|e] s1]; simpl in *; auto.
  eapply extends_trans; [exact Hm | apply Hk].
Qed.

Lemma ao_try_except {A} P (m : M A) (h : exn -> M A) :
  appends_only P m -> (forall e, appends_only P (h e)) -> appends_only P (try_except m h).
Proof.
  intros Hm Hh s. unfold try_except. specialize (Hm s).
  destruct (m s) as [[a|e] s1]; simpl in *; auto.
  eapply extends_trans; [exact Hm | apply Hh].
Qed.

Lemma ao_try_finally {A} P (m : M A) (f : M unit) :
  appends_only P m -> appends_only P f -> appends_only P (try_finally m f).
Proof.
  intros Hm Hf s. unfold try_finally. specialize (Hm s).
  destruct (m s) as [r s1]. specialize (Hf s1).
  destruct (f s1) as [[u|e] s2]; simpl in *; eapply extends_trans; eauto.
Qed.

Lemma ao_emit P e : appends_only P (emit e).
Proof. intros s. apply extends_refl. reflexivity. Qed.

Lemma ao_print P line : appends_only P (print line).
Proof. apply ao_emit. Qed.

Lemma ao_command {A} P e (f : World -> res A * World) : appends_only P (command e f).
Proof.
  intros s. unfold command. destruct (f (world s)). apply extends_refl. reflexivity.
Qed.

Lemma ao_sleep P n : appends_only P (sleep n).
Proof. intros s. apply extends_refl. reflexivity. Qed.

Lemma ao_new_job_data P : appends_only P new_job_data.
Proof. intros s. apply extends_refl. reflexivity. Qed.

Lemma ao_setitem P k v : appends_only P (setitem k v).
Proof. intros s. apply extends_refl. reflexivity. Qed.

Lemma ao_getopt P k : appends_only P (getopt k).
Proof. intros s. apply extends_refl. reflexivity. Qed.

Lemma ao_getitem P k : appends_only P (getitem k).
Proof.
  intros s. unfold getitem. destruct (job_data s !! k); apply extends_refl; reflexivity.
Qed.

Lemma ao_get_job_data P : appends_only P get_job_data.
Proof. intros s. apply extends_refl. reflexivity. Qed.

Lemma ao_get_jobs P : appends_only P get_jobs.
Proof. intros s. apply extends_refl. reflexivity. Qed.

Lemma ao_for_each {A} P (body : A -> M unit) l :
  (forall x, appends_only P (body x)) -> appends_only P (for_each body l).
Proof.
  intros Hb. induction l as [|x l IH]; simpl.
  - apply ao_ret.
  - apply ao_bind; auto.
Qed.

Lemma ao_select {A} P (p : A -> M bool) l :
  (forall x, appends_only P (p x)) -> appends_only P (select p l).
Proof.
  intros Hp. induction l as [|x l IH]; simpl.
  - apply ao_ret.
  - apply ao_bind; [apply Hp|]. intros b. apply ao_bind; [apply IH|].
    intros r. apply ao_ret.
Qed.

End Runs.

Create HintDb frame.
#[export] Hint Resolve ao_ret ao_lift ao_emit ao_print ao_command ao_sleep
  ao_new_job_data ao_setitem ao_getopt ao_getitem ao_get_job_data ao_get_jobs : frame.

(** Walks through a computation built from the combinators above. *)
Ltac frame_step :=
  match goal with
  | |- appends_only _ (bind _ _) => apply ao_bind; [| intros ?]
  | |- appends_only _ (try_except _ _) => apply ao_try_except; [| intros ?]
  | |- appends_only _ (try_finally _ _) => apply ao_try_finally
  | |- appends_only _ (for_each _ _) => apply ao_for_each; intros ?
  | |- appends_only _ (select _ _) => apply ao_select; intros ?
  | |- appends_only _ (if ?b then _ else _) => destruct b
  | |- appends_only _ (match ?x with _ => _ end) => destruct x
  | |- appends_only _ _ => solve [auto with frame]
  end.

Ltac frame := repeat frame_step.

Section Frames.
Context {E : Env}.
Variable P : job -> Prop.

Lemma ao_discover soup : appends_only P (discover soup).
Proof. unfold discover, strategy1, strategy2, strategy3, is_job_card. frame. Qed.

Lemma ao_filter_navigation l : appends_only P (filter_navigation l).
Proof. unfold filter_navigation, keep. frame. Qed.

Lemma ao_get_link element : appends_only P (get_link element).
Proof. unfold get_link. frame. Qed.

Lemma ao_get_title element : appends_only P (get_title element).
Proof. unfold get_title, scan_child. frame. Qed.

Lemma ao_refine_title : appends_only P refine_title.
Proof. unfold refine_title, fetch_detail, detail_failed. frame. Qed.

Lemma ao_get_location element : appends_only P (get_location element).
Proof. unfold get_location. frame. Qed.

Lemma ao_get_department element : appends_only P (get_department element).
Proof. unfold get_department. frame. Qed.

Lemma ao_get_pubdate element : appends_only P (get_pubdate element).
Proof. unfold get_pubdate. frame. Qed.

Lemma ao_click_staffs_tab : appends_only P click_staffs_tab.
Proof. unfold click_staffs_tab. frame. Qed.

End Frames.

(** ** What an accepted record looks like *)

(** The shape of every dict appended to [jobs]. *)
Definition accepted (j : job) : Prop :=
  exists title link location department,
    j !! "title" = Some title /\ title <> "" /\
    j !! "link" = Some link /\ link <> "" /\
    j !! "location" = Some location /\
    j !! "department" = Some department /\
    j !! "description" = Some (description_of title location department).

Lemma truthy_nonempty s : Py.truthy s = true -> s <> "".
Proof. destruct s; simpl; congruence. Qed.

Section Accepted.
Context {E : Env}.

Lemma ao_finish : appends_only accepted (make_description ;; accept).
Proof.
  intros s. unfold make_description, accept, bind, getitem, setitem, append_job, print, emit, ret.
  destruct (job_data s !! "title") as [title|] eqn:Ht; simpl;
    [| apply extends_refl; reflexivity].
  destruct (job_data s !! "location") as [location|] eqn:Hl; simpl;
    [| apply extends_refl; reflexivity].
  destruct (job_data s !! "department") as [department|] eqn:Hd; simpl;
    [| apply extends_refl; reflexivity].
  rewrite !lookup_insert_ne by discriminate. rewrite Ht. simpl.
  destruct (Py.truthy title) eqn:Tt; simpl; [| apply extends_refl; reflexivity].
  rewrite !lookup_insert_ne by discriminate.
  destruct (job_data s !! "link") as [link|] eqn:Hk; simpl;
    [| apply extends_refl; reflexivity].
  destruct (Py.truthy link) eqn:Tl; simpl; [| apply extends_refl; reflexivity].
  rewrite !lookup_insert_ne by discriminate. rewrite Ht. simpl.
  eexists. split; [reflexivity|]. constructor; [|constructor].
  exists title, link, location, department.
  rewrite lookup_insert_eq, !lookup_insert_ne by discriminate.
  eauto 10 using truthy_nonempty.
Qed.

Lemma ao_extract element : appends_only accepted (extract element).
Proof.
  unfold extract.
  apply ao_bind; [auto with frame | intros _].
  apply ao_bind; [apply ao_get_link | intros found].
  destruct found; [| auto with frame].
  apply ao_bind; [apply ao_get_title | intros _].
  apply ao_bind; [apply ao_refine_title | intros _].
  apply ao_bind; [apply ao_get_location | intros _].
  apply ao_bind; [apply ao_get_department | intros _].
  apply ao_bind; [apply ao_get_pubdate | intros _].
  apply ao_finish.
Qed.

Lemma ao_process_element element : appends_only accepted (process_element element).
Proof.
  unfold process_element. apply ao_try_except; [apply ao_extract | intros; auto with frame].
Qed.

Lemma ao_process_candidates l : appends_only accepted (process_candidates l).
Proof.
  unfold process_candidates.
  apply ao_bind; [apply ao_filter_navigation | intros kept].
  apply ao_bind; [auto with frame | intros _].
  apply ao_bind; [apply ao_for_each; intros; apply ao_process_element | intros _].
  frame.
Qed.

Lemma ao_scrape_page : appends_only accepted scrape_page.
Proof.
  unfold scrape_page, execute_script.
  repeat (apply ao_bind; [first [apply ao_click_staffs_tab | apply ao_discover | solve [auto with frame]] | intros ?]).
  apply ao_process_candidates.
Qed.

Lemma ao_scrape_run : appends_only accepted scrape_run.
Proof.
  unfold scrape_run, setup_driver.
  apply ao_bind; [auto with frame | intros _].
  apply ao_bind; [auto with frame | intros _].
  apply ao_bind; [| intros; auto with frame].
  apply ao_try_finally; [| auto with frame].
  apply ao_try_except; [apply ao_scrape_page | intros; auto with frame].
Qed.

(** The list a run returns is the list [jobs] it has built. *)
Lemma scrape_returns_jobs (w : World) js s :
  scrape_gcf_jobs w = (Ok js, s) -> js = jobs s.
Proof.
  unfold scrape_gcf_jobs, scrape_run. unfold bind at 1.
  destruct (print _ _) as [[u|e] s1]; [| discriminate].
  unfold bind at 1. destruct (setup_driver s1) as [[u1|e] s2]; [| discriminate].
  unfold bind at 1. destruct (try_finally _ _ s2) as [[u2|e] s3]; [| discriminate].
  unfold get_jobs. intros H. injection H as <- <-. reflexivity.
Qed.

Lemma scrape_jobs_accepted (w : World) js s :
  scrape_gcf_jobs w = (Ok js, s) -> Forall accepted js.
Proof.
  intros H. pose proof (scrape_returns_jobs _ _ _ H) as ->.
  destruct (ao_scrape_run (initial_state w)) as (l & Hl & Fl).
  unfold scrape_gcf_jobs in H. rewrite H in Hl. simpl in Hl. rewrite Hl. exact Fl.
Qed.

End Accepted.

(** ** Pages to run the extractor on *)

Module Scenario.
Import Fixture.

(** A listing with three job links: one with a short title inside a card
    that names a place, one absolute, one whose target contains "about". *)
Definition listing : node := document
  [Element "div" [] [a "/job/77" "Dev"; Element "span" [] [Text " Incheon "]];
   Element "li" [] [a "https://x.org/job/78" "Senior Engineer"];
   a "/job/about-us" "Engineer II"].

(** Only the listing can be loaded: every detail page times out. *)
Definition site (u : string) : res node :=
  if String.eqb u url then Ok listing else Raise (Exception "timeout").

Definition env : Env := Fixture.env site false.

(** The records and the final state of the run on [site]. *)
Definition run_jobs : list job :=
  match (@scrape_gcf_jobs env blank).1 with Ok js => js | Raise _ => [] end.

Definition run_state : @state env := (@scrape_gcf_jobs env blank).2.

End Scenario.

(** ** C6 and C2: the accepted records *)

Definition has_title_and_link (j : job) : Prop :=
  (exists title, j !! "title" = Some title /\ title <> "")
  /\ (exists link, j !! "link" = Some link /\ link <> "").

(** C6. Every record of the sequence a run of [scrape_gcf_jobs] returns
    has a non-empty title and a non-empty link. *)
Theorem C6_records_have_title_and_link {E : Env} (w : World) js s :
  scrape_gcf_jobs w = (Ok js, s) -> Forall has_title_and_link js.
Proof.
  intros H. eapply Forall_impl; [exact (scrape_jobs_accepted _ _ _ H)|].
  intros j (t & l & _ & _ & Ht & Nt & Hl & Nl & _). split; eauto.
Qed.

Lemma C6_witness :
  length Scenario.run_jobs = 3 /\ Forall has_title_and_link Scenario.run_jobs.
Proof.
  split; [vm_compute; reflexivity|].
  apply (@C6_records_have_title_and_link Scenario.env Fixture.blank
           Scenario.run_jobs Scenario.run_state).
  vm_compute. reflexivity.
Defined.

(** The description as the claim words it: the location part is left out
    exactly when the location is the default given to an unknown location. *)
Definition claimed_description (title location department : string) : string :=
  Py.join " | "
    ([title]
     ++ (if String.eqb location default_location then [] else ["Location: " +:+ location])
     ++ (if String.eqb department "" then [] else ["Department: " +:+ department])).

(** C2, as stated, fails: the run on [Scenario.site] accepts a record whose
    location is the default for an unknown location, and its description
    still carries the location part. *)
Lemma C2_counterexample :
  exists j, Scenario.run_jobs !! 1%nat = Some j
    /\ j !! "title" = Some "Senior Engineer"
    /\ j !! "location" = Some default_location
    /\ j !! "department" = Some ""
    /\ j !! "description" = Some "Senior Engineer | Location: Green Climate Fund"
    /\ j !! "description"
       <> Some (claimed_description "Senior Engineer" default_location "").
Proof.
  eexists. split; [vm_compute; reflexivity|].
  repeat split; try (vm_compute; reflexivity).
  vm_compute. discriminate.
Qed.

Lemma truthy_eqb_empty s : Py.truthy s = negb (String.eqb s "").
Proof. destruct s; reflexivity. Qed.

Lemma append_nil_r (s : string) : s +:+ "" = s.
Proof. induction s as [|c s IH]; simpl; congruence. Qed.

Lemma append_assoc (a b c : string) : (a +:+ b) +:+ c = a +:+ (b +:+ c).
Proof. induction a as [|x a IH]; simpl; congruence. Qed.

Lemma description_of_explicit title location department :
  description_of title location department
  = title
    +:+ (if String.eqb location "Not specified" then "" else " | Location: " +:+ location)
    +:+ (if String.eqb department "" then "" else " | Department: " +:+ department).
Proof.
  unfold description_of, description_parts, Py.join.
  rewrite truthy_eqb_empty.
  destruct (String.eqb location "Not specified"), (String.eqb department "");
    simpl; rewrite ?append_nil_r; reflexivity.
Qed.

(** C2, amended. The description of every accepted record is its title,
    then " | Location: X" unless the location is the literal
    "Not specified" (which is not the default "Green Climate Fund" given to
    an unknown location), then " | Department: Y" unless the department is
    empty; for title "Engineer", location "Remote" and no department it is
    "Engineer | Location: Remote". *)
Theorem C2_description {E : Env} (w : World) js s :
  scrape_gcf_jobs w = (Ok js, s) ->
  Forall (fun j : job =>
    exists title location department,
      j !! "title" = Some title /\ j !! "location" = Some location
      /\ j !! "department" = Some department
      /\ j !! "description" = Some
           (title
            +:+ (if String.eqb location "Not specified" then ""
                 else " | Location: " +:+ location)
            +:+ (if String.eqb department "" then ""
                 else " | Department: " +:+ department))) js
  /\ description_of "Engineer" "Remote" "" = "Engineer | Location: Remote"
  /\ default_location <> "Not specified".
Proof.
  intros H. split; [| split; [reflexivity | discriminate]].
  eapply Forall_impl; [exact (scrape_jobs_accepted _ _ _ H)|].
  intros j (t & l & loc & d & Ht & _ & _ & _ & Hloc & Hd & Hdesc).
  exists t, loc, d. rewrite <- description_of_explicit. auto.
Qed.

Lemma C2_witness :
  Forall (fun j : job => exists title location department,
      j !! "title" = Some title /\ j !! "location" = Some location
      /\ j !! "department" = Some department
      /\ j !! "description" = Some
           (title
            +:+ (if String.eqb location "Not specified" then ""
                 else " | Location: " +:+ location)
            +:+ (if String.eqb department "" then ""
                 else " | Department: " +:+ department))) Scenario.run_jobs.
Proof.
  apply (@C2_description Scenario.env Fixture.blank Scenario.run_jobs Scenario.run_state).
  vm_compute. reflexivity.
Defined.

(** ** C5: link normalisation *)

(** A URI scheme in the sense of RFC 3986: a letter, then letters, digits,
    "+", "-" or ".", then a colon. *)
Definition scheme_char (c : ascii) : bool :=
  Minidom.is_letter c || ET.is_digit c
  || Ascii.eqb c "+" || Ascii.eqb c "-" || Ascii.eqb c ".".

Definition has_scheme (href : string) : bool :=
  match href with
  | String c r =>
      Minidom.is_letter c
      && match snd (Minidom.span scheme_char r) with
         | String ":" _ => true
         | _ => false
         end
  | EmptyString => false
  end.

Module SchemeScenario.
Import Fixture.

Definition href : string := "ftp://files.example.org/job/9".

(** A job link whose target has a scheme other than http(s). *)
Definition candidate : handle := mkHandle (a href "Archivist") [document [a href "Archivist"]].

Definition env : Env := Fixture.env (fun _ => Ok blank) false.

Definition after_link : @state env := (@get_link env candidate (@initial_state env blank)).2.

(** A relative job link. *)
Definition relative : handle := mkHandle (a "/job/7" "Clerk") [document [a "/job/7" "Clerk"]].

(** A job card: a container whose link is the hyperlink inside it. *)
Definition card_node : node :=
  Element "div" []
    [Element "h3" [("class", "job-title")] [Text "Analyst"];
     Element "a" [("href", "https://careers.example.org/42")] [Text "Apply"]].

Definition card : handle := mkHandle card_node [document [card_node]].

(** A container without any hyperlink. *)
Definition bare : handle :=
  mkHandle (Element "div" [] [Text "Analyst"]) [document [Element "div" [] [Text "Analyst"]]].

Definition start : @state env := @initial_state env blank.

End SchemeScenario.

(** C5, as stated, fails: a link target with the scheme [ftp] matches
    strategy (a) and is not passed through unchanged; the origin is put in
    front of it. *)
Lemma C5_counterexample :
  has_scheme SchemeScenario.href = true
  /\ job_href (Some SchemeScenario.href) = true
  /\ job_data SchemeScenario.after_link !! "link"
     = Some "https://jobs.greenclimate.fundftp://files.example.org/job/9"
  /\ job_data SchemeScenario.after_link !! "link" <> Some SchemeScenario.href.
Proof.
  repeat split; try (vm_compute; reflexivity). vm_compute. discriminate.
Qed.

Lemma startswith_absolute href : Py.startswith "http" (absolute href) = true.
Proof.
  unfold absolute. destruct (Py.startswith "http" href) eqn:H; [exact H | reflexivity].
Qed.

(** The state after [job_data['link'] = link]. *)
Definition with_link {E : Env} (s : state) (link : string) : state :=
  mkState (world s) (trace s) (jobs s) (<["link" := link]> (job_data s)).

(** C5, amended. A candidate that is itself a hyperlink with a non-empty
    [href] gets that attribute as its link, and any other candidate gets
    the [href] of the first hyperlink inside it: unchanged when the
    attribute starts with "http", with "https://jobs.greenclimate.fund" put
    in front of it otherwise, so that the link always starts with "http".
    A candidate without either is skipped and gets no link. *)
Theorem C5_link_normalised {E : Env} (element : tag) (s : state) :
  (forall href,
     tag_name element = "a" -> tag_get element "href" = Some href -> href <> "" ->
     get_link element s
     = (Ok true,
        with_link s (if Py.startswith "http" href then href
                     else "https://jobs.greenclimate.fund" +:+ href)))
  /\ (forall link_elem href,
        tag_name element <> "a" \/ tag_get element "href" = None
        \/ tag_get element "href" = Some "" ->
        find element ["a"] [("href", present)] = Ok (Some link_elem) ->
        tag_get link_elem "href" = Some href ->
        get_link element s
        = (Ok true,
           with_link s (if Py.startswith "http" href then href
                        else "https://jobs.greenclimate.fund" +:+ href)))
  /\ (tag_name element <> "a" \/ tag_get element "href" = None
        \/ tag_get element "href" = Some "" ->
      find element ["a"] [("href", present)] = Ok None ->
      get_link element s = (Ok false, s))
  /\ (forall href,
        Py.startswith "http"
          (if Py.startswith "http" href then href
           else "https://jobs.greenclimate.fund" +:+ href) = true).
Proof.
  assert (Hown : tag_name element <> "a" \/ tag_get element "href" = None
                 \/ tag_get element "href" = Some "" ->
                 String.eqb (tag_name element) "a" && truthy_opt (tag_get element "href")
                 = false).
  { intros [Hn|[Hg|Hg]].
    - apply String.eqb_neq in Hn. rewrite Hn. reflexivity.
    - rewrite Hg. apply andb_false_r.
    - rewrite Hg. apply andb_false_r. }
  split; [| split; [| split]].
  - intros href Hn Hg Hne. unfold get_link, bind, lift, setitem, ret, tag_index, with_link.
    rewrite Hn, Hg. simpl. destruct href; [congruence|]. reflexivity.
  - intros link_elem href Ho Hf Hg.
    unfold get_link, bind, lift, setitem, ret, tag_index, with_link.
    rewrite (Hown Ho), Hf, Hg. reflexivity.
  - intros Ho Hf. unfold get_link, bind, lift, ret. rewrite (Hown Ho), Hf. reflexivity.
  - intros href. exact (startswith_absolute href).
Qed.

Lemma C5_witness :
  job_data (@get_link SchemeScenario.env SchemeScenario.relative SchemeScenario.start).2
    !! "link" = Some "https://jobs.greenclimate.fund/job/7"
  /\ job_data (@get_link SchemeScenario.env SchemeScenario.card SchemeScenario.start).2
       !! "link" = Some "https://careers.example.org/42"
  /\ @get_link SchemeScenario.env SchemeScenario.bare SchemeScenario.start
     = (Ok false, SchemeScenario.start).
Proof.
  destruct (@C5_link_normalised SchemeScenario.env SchemeScenario.relative
              SchemeScenario.start) as (H1 & _ & _ & _).
  destruct (@C5_link_normalised SchemeScenario.env SchemeScenario.card
              SchemeScenario.start) as (_ & H2 & _ & _).
  destruct (@C5_link_normalised SchemeScenario.env SchemeScenario.bare
              SchemeScenario.start) as (_ & _ & H3 & _).
  split; [| split].
  - rewrite (H1 "/job/7"); [vm_compute; reflexivity | reflexivity | reflexivity | discriminate].
  - rewrite (H2 (Fixture.mkHandle
                   (Fixture.Element "a" [("href", "https://careers.example.org/42")]
                      [Fixture.Text "Apply"])
                   [SchemeScenario.card_node; Fixture.document [SchemeScenario.card_node]])
               "https://careers.example.org/42");
      [vm_compute; reflexivity | left; discriminate | vm_compute; reflexivity | reflexivity].
  - apply H3; [left; discriminate | vm_compute; reflexivity].
Defined.

(** ** C3: the navigation filter *)

Module FilterScenario.
Import Fixture.

(** A job link whose target, but not whose text, contains "about". *)
Definition about_link : handle :=
  mkHandle (a "/job/about-us" "Engineer II") [document [a "/job/about-us" "Engineer II"]].

(** A job link whose text contains "Help" in capitals. *)
Definition help_link : handle :=
  mkHandle (a "/job/5" "HELP desk") [document [a "/job/5" "HELP desk"]].

Definition env : Env := Fixture.env (fun _ => Ok blank) false.

Definition start : @state env := @initial_state env blank.

End FilterScenario.

(** C3, as stated, fails: a candidate whose link target contains the
    keyword "about" survives the filter. *)
Lemma C3_counterexample :
  Py.contains "about" (default "" (@tag_get FilterScenario.env FilterScenario.about_link "href")) = true
  /\ @filter_navigation FilterScenario.env [FilterScenario.about_link] FilterScenario.start
     = (Ok [FilterScenario.about_link], FilterScenario.start).
Proof. split; vm_compute; reflexivity. Qed.

Section Filter.
Context {E : Env}.

(** Whether the filter drops a candidate whose stripped text is [text]:
    lines 116 to 123 as a function of what they read. *)
Definition dropped (element : tag) (text : string) : bool :=
  Py.any_in ["sitemap"; "account"; "sign-in"; "profile"; "help"; "about"] (Py.lower text)
  || (String.eqb (tag_name element) "a"
      && Py.any_in ["sitemap"; "sign-in"; "profile"]
           (Py.lower (default "" (tag_get element "href")))).

Lemma keep_spec element text s :
  get_text_strip element = Ok text ->
  keep element s = (Ok (negb (dropped element text)), s).
Proof.
  intros H. unfold keep, bind, lift, ret, dropped, filter_link, skip_keywords,
    skip_link_keywords. rewrite H. cbv zeta.
  generalize (Py.any_in ["sitemap"; "account"; "sign-in"; "profile"; "help"; "about"]
                (Py.lower text)).
  intros [|]; [reflexivity|].
  destruct (String.eqb (tag_name element) "a"); [| reflexivity].
  generalize (Py.any_in ["sitemap"; "sign-in"; "profile"]
                (Py.lower (default "" (tag_get element "href")))).
  intros [|]; reflexivity.
Qed.

Lemma filter_navigation_spec (text_of : tag -> string) l s :
  Forall (fun element => get_text_strip element = Ok (text_of element)) l ->
  filter_navigation l s
  = (Ok (List.filter (fun element => negb (dropped element (text_of element))) l), s).
Proof.
  unfold filter_navigation. induction 1 as [|x l Hx Hl IH]; simpl; [reflexivity|].
  unfold bind at 1. rewrite (keep_spec _ _ _ Hx).
  unfold bind at 1. rewrite IH. unfold ret.
  destruct (negb (dropped x (text_of x))); reflexivity.
Qed.

End Filter.

(** C3, amended. A candidate is dropped by the filtering step exactly when
    its visible text, lower-cased, contains one of sitemap, account,
    sign-in, profile, help, about, or the candidate is itself a hyperlink
    and its link target, lower-cased, contains one of sitemap, sign-in,
    profile; the candidates that remain keep their order. *)
Theorem C3_filter {E : Env} (text_of : tag -> string) (l : list tag) (s : state) :
  Forall (fun element => get_text_strip element = Ok (text_of element)) l ->
  filter_navigation l s
  = (Ok (List.filter
           (fun element =>
              negb (Py.any_in ["sitemap"; "account"; "sign-in"; "profile"; "help"; "about"]
                      (Py.lower (text_of element))
                    || (String.eqb (tag_name element) "a"
                        && Py.any_in ["sitemap"; "sign-in"; "profile"]
                             (Py.lower (default "" (tag_get element "href")))))) l), s).
Proof. exact (filter_navigation_spec text_of l s). Qed.

Lemma C3_witness :
  @filter_navigation FilterScenario.env
    [FilterScenario.about_link; FilterScenario.help_link] FilterScenario.start
  = (Ok [FilterScenario.about_link], FilterScenario.start).
Proof.
  rewrite (@C3_filter FilterScenario.env Fixture.text_of
             [FilterScenario.about_link; FilterScenario.help_link] FilterScenario.start).
  - vm_compute. reflexivity.
  - repeat constructor.
Defined.

(** ** C4: discovery stops at the first strategy that finds candidates *)

Module DiscoveryScenario.
Import Fixture.

(** A page with no job link but one job card. *)
Definition cards : node := document
  [Element "div" []
     [Element "h3" [("class", "job-title")] [Text "Analyst"];
      Element "a" [("href", "/careers/42")] [Text "Apply"]]].

Definition env : Env := Fixture.env (fun _ => Ok blank) false.

Definition soup : handle := mkHandle cards [].

Definition start : @state env := @initial_state env blank.

(** A page with two job links. *)
Definition links : node := document [a "/job/1" "Economist"; a "/job/2" "Statistician"].

Definition links_soup : handle := mkHandle links [].

(** A page with neither job links nor job cards, but one container that
    carries an automation id. *)
Definition tagged : node := document
  [Element "div" [("data-automation-id", "jobCard")] [Element "span" [] [Text "Role"]]].

Definition tagged_soup : handle := mkHandle tagged [].

End DiscoveryScenario.

(** C4, as stated, fails for N = 0: on a page without any job link,
    strategy (a) yields no candidate and strategy (b) is run. *)
Lemma C4_counterexample :
  @find_all DiscoveryScenario.env DiscoveryScenario.soup ["a"] [("href", job_href)] = Ok []
  /\ @discover DiscoveryScenario.env DiscoveryScenario.soup DiscoveryScenario.start
     <> @strategy1 DiscoveryScenario.env DiscoveryScenario.soup DiscoveryScenario.start
  /\ trace (@discover DiscoveryScenario.env DiscoveryScenario.soup DiscoveryScenario.start).2
     = [Print "Found 1 elements with titles and links"].
Proof.
  split; [vm_compute; reflexivity|]. split; [| vm_compute; reflexivity].
  intros H. apply (f_equal (fun r => length (trace r.2))) in H. vm_compute in H. discriminate.
Qed.

Section Discovery.
Context {E : Env}.

Lemma discover_first soup job_links s :
  find_all soup ["a"] [("href", job_href)] = Ok job_links ->
  job_links <> [] ->
  discover soup s = strategy1 soup s
  /\ discover soup s
     = (Ok job_links,
        mkState (world s)
          (trace s ++ [Print ("Found " +:+ Py.str_of_nat (length job_links)
                              +:+ " job requisition links")])
          (jobs s) (job_data s)).
Proof.
  intros H Hne. unfold discover, strategy1, bind, lift, print, emit, ret. rewrite H.
  destruct job_links as [|x l]; [congruence|]. simpl. split; reflexivity.
Qed.

Lemma length_take_min {A} (l : list A) n : length (take n l) = Nat.min n (length l).
Proof. apply length_take. Qed.

(** Whether strategy (b) takes a container, given what its two lookups
    return. *)
Definition is_card (title_elem link_elem : option tag) : bool :=
  bool_decide (is_Some title_elem) && bool_decide (is_Some link_elem).

Lemma select_cards (title_of link_of : tag -> option tag) containers s :
  Forall (fun c => find c ["h2"; "h3"; "h4"] [("class", attr_has "title")] = Ok (title_of c)
                   /\ find c ["a"] [("href", present)] = Ok (link_of c)) containers ->
  select is_job_card containers s
  = (Ok (List.filter (fun c => is_card (title_of c) (link_of c)) containers), s).
Proof.
  induction 1 as [|c l [Ht Hl] _ IH]; simpl; [reflexivity|].
  unfold bind at 1. unfold is_job_card at 1. unfold bind, lift, ret.
  rewrite Ht, Hl. fold (is_card (title_of c) (link_of c)).
  unfold bind, ret in IH. rewrite IH.
  destruct (is_card (title_of c) (link_of c)); reflexivity.
Qed.

Lemma discover_fallback soup (title_of link_of : tag -> option tag) containers s :
  find_all soup ["a"] [("href", job_href)] = Ok [] ->
  find_all soup ["div"; "article"; "li"] [] = Ok containers ->
  Forall (fun c => find c ["h2"; "h3"; "h4"] [("class", attr_has "title")] = Ok (title_of c)
                   /\ find c ["a"] [("href", present)] = Ok (link_of c)) containers ->
  let cards := List.filter (fun c => is_card (title_of c) (link_of c)) containers in
  (cards <> [] ->
   discover soup s
   = (Ok cards,
      mkState (world s)
        (trace s ++ [Print ("Found " +:+ Py.str_of_nat (length cards)
                            +:+ " elements with titles and links")])
        (jobs s) (job_data s)))
  /\ (cards = [] ->
      forall tagged,
        find_all soup ["div"; "article"] [("data-automation-id", attr_has "job")] = Ok tagged ->
        discover soup s
        = (Ok tagged,
           mkState (world s)
             (trace s ++ [Print "Found 0 elements with titles and links";
                          Print ("Found " +:+ Py.str_of_nat (length tagged)
                                 +:+ " job container elements")])
             (jobs s) (job_data s))).
Proof.
  intros Ha Hc Hk cards.
  assert (H2 : strategy2 soup s
               = (Ok cards,
                  mkState (world s)
                    (trace s ++ [Print ("Found " +:+ Py.str_of_nat (length cards)
                                        +:+ " elements with titles and links")])
                    (jobs s) (job_data s))).
  { unfold strategy2. erewrite bind_ok by (unfold lift; rewrite Hc; reflexivity).
    erewrite bind_ok by (apply (select_cards title_of link_of); exact Hk).
    reflexivity. }
  assert (H1 : discover soup s
               = bind (strategy2 soup)
                   (fun job_elements => match job_elements with
                                        | [] => strategy3 soup
                                        | _ :: _ => ret job_elements
                                        end) s).
  { unfold discover. erewrite bind_ok
      by (unfold strategy1, bind, lift, ret; rewrite Ha; reflexivity).
    reflexivity. }
  split.
  - intros Hne. rewrite H1. erewrite bind_ok by exact H2.
    destruct cards; [congruence | reflexivity].
  - intros He tagged Ht. rewrite H1. erewrite bind_ok by exact H2.
    rewrite He. unfold strategy3, bind, lift, print, emit, ret. rewrite Ht. simpl.
    rewrite <- app_assoc. reflexivity.
Qed.

End Discovery.

(** C4, amended. For every rendered page with N >= 1 job links matching
    strategy (a), none of them dropped by the navigation filter: discovery
    is strategy (a) alone (strategies (b) and (c) are not run, and the only
    line printed is the count of job links), all N links pass the filter,
    and exactly min(N, 50) of them, the first ones in document order, enter
    per-candidate extraction.  For a page with N = 0 such links, strategy
    (b) is run: the containers that have both a title heading and a
    hyperlink are the candidates when there is one; when there is none,
    strategy (c) is run after it and its containers are the candidates. *)
Theorem C4_first_strategy {E : Env} (soup : tag) (s : state) :
  (forall (job_links : list tag) (text_of : tag -> string),
     find_all soup ["a"] [("href", job_href)] = Ok job_links ->
     1 <= length job_links ->
     Forall (fun element => get_text_strip element = Ok (text_of element)
                            /\ dropped element (text_of element) = false) job_links ->
     discover soup s = strategy1 soup s
     /\ (exists s1,
           discover soup s = (Ok job_links, s1)
           /\ trace s1 = trace s ++ [Print ("Found " +:+ Py.str_of_nat (length job_links)
                                            +:+ " job requisition links")]
           /\ process_candidates job_links s1
              = (print ("Processing " +:+ Py.str_of_nat (length job_links)
                        +:+ " potential job listings (after filtering)...") ;;
                 for_each process_element (take 50 job_links) ;;
                 jobs <- get_jobs ;;
                 print (nl +:+ "Successfully scraped " +:+ Py.str_of_nat (length jobs)
                        +:+ " jobs")) s1)
     /\ length (take 50 job_links) = Nat.min (length job_links) 50)
  /\ (forall (title_of link_of : tag -> option tag) (containers : list tag),
        find_all soup ["a"] [("href", job_href)] = Ok [] ->
        find_all soup ["div"; "article"; "li"] [] = Ok containers ->
        Forall (fun c =>
                  find c ["h2"; "h3"; "h4"] [("class", attr_has "title")] = Ok (title_of c)
                  /\ find c ["a"] [("href", present)] = Ok (link_of c)) containers ->
        let cards :=
          List.filter (fun c => bool_decide (is_Some (title_of c))
                                && bool_decide (is_Some (link_of c))) containers in
        (cards <> [] ->
         discover soup s
         = (Ok cards,
            mkState (world s)
              (trace s ++ [Print ("Found " +:+ Py.str_of_nat (length cards)
                                  +:+ " elements with titles and links")])
              (jobs s) (job_data s)))
        /\ (cards = [] ->
            forall tagged,
              find_all soup ["div"; "article"] [("data-automation-id", attr_has "job")]
              = Ok tagged ->
              discover soup s
              = (Ok tagged,
                 mkState (world s)
                   (trace s ++ [Print "Found 0 elements with titles and links";
                                Print ("Found " +:+ Py.str_of_nat (length tagged)
                                       +:+ " job container elements")])
                   (jobs s) (job_data s)))).
Proof.
  split.
  - intros job_links text_of Hf Hn Hk.
    assert (Hne : job_links <> []) by (destruct job_links; simpl in Hn; [lia | congruence]).
    destruct (discover_first soup job_links s Hf Hne) as [H1 H2].
    split; [exact H1|]. split.
    + eexists. split; [exact H2|]. split; [reflexivity|].
      unfold process_candidates. unfold bind at 1.
      rewrite (filter_navigation_spec text_of).
      * assert (Hall : List.filter (fun element => negb (dropped element (text_of element)))
                         job_links = job_links).
        { clear -Hk. induction Hk as [|x l [_ Hx] _ IH]; simpl; [reflexivity|].
          rewrite Hx. simpl. congruence. }
        rewrite Hall. reflexivity.
      * eapply Forall_impl; [exact Hk|]. intros x [Hx _]. exact Hx.
    + rewrite length_take. lia.
  - intros title_of link_of containers Ha Hc Hk.
    exact (discover_fallback soup title_of link_of containers s Ha Hc Hk).
Qed.

Lemma C4_witness :
  (@discover DiscoveryScenario.env DiscoveryScenario.links_soup DiscoveryScenario.start
   = @strategy1 DiscoveryScenario.env DiscoveryScenario.links_soup DiscoveryScenario.start
   /\ length (take 50 (List.filter (Fixture.matches ["a"] [("href", job_href)])
                          (Fixture.descendants DiscoveryScenario.links_soup))) = 2)
  /\ length (trace (@discover DiscoveryScenario.env DiscoveryScenario.soup
                      DiscoveryScenario.start).2) = 1
  /\ trace (@discover DiscoveryScenario.env DiscoveryScenario.tagged_soup
              DiscoveryScenario.start).2
     = [Print "Found 0 elements with titles and links";
        Print "Found 1 job container elements"].
Proof.
  pose (title_of := fun c : Fixture.handle =>
          head (List.filter (Fixture.matches ["h2"; "h3"; "h4"] [("class", attr_has "title")])
                  (Fixture.descendants c))).
  pose (link_of := fun c : Fixture.handle =>
          head (List.filter (Fixture.matches ["a"] [("href", present)])
                  (Fixture.descendants c))).
  split; [| split].
  - destruct (@C4_first_strategy DiscoveryScenario.env DiscoveryScenario.links_soup
                DiscoveryScenario.start) as [HA _].
    destruct (HA (List.filter (Fixture.matches ["a"] [("href", job_href)])
                    (Fixture.descendants DiscoveryScenario.links_soup))
                Fixture.text_of) as (H1 & _ & H3).
    + reflexivity.
    + vm_compute. lia.
    + vm_compute. repeat constructor.
    + split; [exact H1|]. etransitivity; [exact H3 | vm_compute; reflexivity].
  - destruct (@C4_first_strategy DiscoveryScenario.env DiscoveryScenario.soup
                DiscoveryScenario.start) as [_ HB].
    destruct (HB title_of link_of
                (List.filter (Fixture.matches ["div"; "article"; "li"] [])
                   (Fixture.descendants DiscoveryScenario.soup))) as [Hcards _].
    + vm_compute. reflexivity.
    + reflexivity.
    + vm_compute. repeat constructor.
    + refine (eq_ind_r (fun r => length (trace r.2) = 1) _ (Hcards _)).
      * reflexivity.
      * vm_compute. discriminate.
  - destruct (@C4_first_strategy DiscoveryScenario.env DiscoveryScenario.tagged_soup
                DiscoveryScenario.start) as [_ HB].
    destruct (HB title_of link_of
                (List.filter (Fixture.matches ["div"; "article"; "li"] [])
                   (Fixture.descendants DiscoveryScenario.tagged_soup))) as [_ Hnone].
    + vm_compute. reflexivity.
    + reflexivity.
    + vm_compute. repeat constructor.
    + refine (eq_ind_r (fun r => trace r.2 = _) _
                (Hnone _ (List.filter
                            (Fixture.matches ["div"; "article"]
                               [("data-automation-id", attr_has "job")])
                            (Fixture.descendants DiscoveryScenario.tagged_soup)) _)).
      * vm_compute. reflexivity.
      * vm_compute. reflexivity.
      * reflexivity.
Defined.

(** ** Relations every step of a run respects *)

Section Preserves.
Context {E : Env}.
Variable R : state -> state -> Prop.
Hypothesis R_refl : forall s, R s s.
Hypothesis R_trans : forall a b c, R a b -> R b c -> R a c.

(** Every run of [m] ends in a state related to the one it started in. *)
Definition preserves {A} (m : M A) : Prop := forall s, R s (m s).2.

Lemma pr_ret {A} (a : A) : preserves (ret a).
Proof. intros s. apply R_refl. Qed.

Lemma pr_lift {A} (r : res A) : preserves (lift r).
Proof. intros s. apply R_refl. Qed.

Lemma pr_getopt k : preserves (getopt k).
Proof. intros s. apply R_refl. Qed.

Lemma pr_getitem k : preserves (getitem k).
Proof. intros s. unfold getitem. destruct (job_data s !! k); apply R_refl. Qed.

Lemma pr_get_job_data : preserves get_job_data.
Proof. intros s. apply R_refl. Qed.

Lemma pr_get_jobs : preserves get_jobs.
Proof. intros s. apply R_refl. Qed.

Lemma pr_bind {A B} (m : M A) (k : A -> M B) :
  preserves m -> (forall a, preserves (k a)) -> preserves (bind m k).
Proof.
  intros Hm Hk s. unfold bind. specialize (Hm s).
  destruct (m s) as [[a|e] s1]; simpl in *; auto.
  eapply R_trans; [exact Hm | apply Hk].
Qed.

Lemma pr_try_except {A} (m : M A) (h : exn -> M A) :
  preserves m -> (forall e, preserves (h e)) -> preserves (try_except m h).
Proof.
  intros Hm Hh s. unfold try_except. specialize (Hm s).
  destruct (m s) as [[a|e] s1]; simpl in *; auto.
  eapply R_trans; [exact Hm | apply Hh].
Qed.

Lemma pr_for_each {A} (body : A -> M unit) l :
  (forall x, preserves (body x)) -> preserves (for_each body l).
Proof.
  intros Hb. induction l as [|x l IH]; simpl; [apply pr_ret | apply pr_bind; auto].
Qed.

End Preserves.

(** The trace only grows. *)
Definition trace_grows {E : Env} (s s' : state) : Prop :=
  exists t, trace s' = trace s ++ t.

(** The entry of [job_data] under [k] is left alone. *)
Definition same_key {E : Env} (k : string) (s s' : state) : Prop :=
  job_data s' !! k = job_data s !! k.

Section Relations.
Context {E : Env}.

Lemma trace_grows_refl s : trace_grows s s.
Proof. exists []. rewrite app_nil_r. reflexivity. Qed.

Lemma trace_grows_trans a b c : trace_grows a b -> trace_grows b c -> trace_grows a c.
Proof. intros [t1 H1] [t2 H2]. exists (t1 ++ t2). rewrite H2, H1, app_assoc. reflexivity. Qed.

Lemma same_key_refl k s : same_key k s s.
Proof. reflexivity. Qed.

Lemma same_key_trans k a b c : same_key k a b -> same_key k b c -> same_key k a c.
Proof. unfold same_key. congruence. Qed.

Lemma tg_emit e : preserves trace_grows (emit e).
Proof. intros s. exists [e]. reflexivity. Qed.

Lemma tg_command {A} e (f : World -> res A * World) : preserves trace_grows (command e f).
Proof. intros s. unfold command. destruct (f (world s)). exists [e]. reflexivity. Qed.

Lemma tg_sleep n : preserves trace_grows (sleep n).
Proof. intros s. exists [Sleep n]. reflexivity. Qed.

Lemma tg_setitem k v : preserves trace_grows (setitem k v).
Proof. intros s. exists []. simpl. rewrite app_nil_r. reflexivity. Qed.

Lemma sk_emit k e : preserves (same_key k) (emit e).
Proof. intros s. reflexivity. Qed.

Lemma sk_command {A} k e (f : World -> res A * World) : preserves (same_key k) (command e f).
Proof. intros s. unfold command. destruct (f (world s)). reflexivity. Qed.

Lemma sk_sleep k n : preserves (same_key k) (sleep n).
Proof. intros s. reflexivity. Qed.

Lemma sk_setitem k k' v : k' <> k -> preserves (same_key k) (setitem k' v).
Proof. intros H s. unfold same_key, setitem. simpl. apply lookup_insert_ne. exact H. Qed.

End Relations.

Create HintDb rel.
#[export] Hint Resolve trace_grows_refl trace_grows_trans same_key_refl same_key_trans : rel.
#[export] Hint Resolve tg_emit tg_command tg_sleep tg_setitem
  sk_emit sk_command sk_sleep : rel.
#[export] Hint Extern 1 (preserves _ (print _)) => unfold print : rel.
#[export] Hint Extern 1 (preserves (same_key _) (setitem _ _)) =>
  apply sk_setitem; discriminate : rel.

Ltac pres_step :=
  match goal with
  | |- preserves _ (bind _ _) => eapply pr_bind; [eauto with rel | | intros ?]
  | |- preserves _ (try_except _ _) => eapply pr_try_except; [eauto with rel | | intros ?]
  | |- preserves _ (for_each _ _) => eapply pr_for_each; [eauto with rel | eauto with rel | intros ?]
  | |- preserves _ (ret _) => apply pr_ret; eauto with rel
  | |- preserves _ (lift _) => apply pr_lift; eauto with rel
  | |- preserves _ (getopt _) => apply pr_getopt; eauto with rel
  | |- preserves _ (getitem _) => apply pr_getitem; eauto with rel
  | |- preserves _ get_job_data => apply pr_get_job_data; eauto with rel
  | |- preserves _ get_jobs => apply pr_get_jobs; eauto with rel
  | |- preserves _ (if ?b then _ else _) => destruct b
  | |- preserves _ (match ?x with _ => _ end) => destruct x
  | |- preserves _ _ => solve [eauto with rel]
  end.

Ltac pres := repeat pres_step.

Section DetailFrames.
Context {E : Env}.

Lemma tg_fetch_detail : preserves trace_grows fetch_detail.
Proof. unfold fetch_detail. pres. Qed.

Lemma tg_detail_failed e : preserves trace_grows (detail_failed e).
Proof. unfold detail_failed. pres. Qed.

Lemma sk_link_fetch_detail : preserves (same_key "link") fetch_detail.
Proof. unfold fetch_detail. pres. Qed.

Lemma sk_title_after element :
  preserves (same_key "title")
    (get_location element ;; get_department element ;; get_pubdate element ;;
     make_description).
Proof.
  unfold get_location, get_department, get_pubdate, make_description. pres.
Qed.

End DetailFrames.

(** ** C1: the detail-page detour and the title it leaves *)

Section Detail.
Context {E : Env}.

(** The first two things the detour does. *)
Lemma fetch_detail_attempt s link :
  job_data s !! "link" = Some link ->
  exists rest,
    trace (fetch_detail s).2
    = trace s ++ Print ("  Fetching details for job " +:+ Py.last_segment "/" link +:+ "...")
                 :: DriverGet link :: rest.
Proof.
  intros Hl. unfold fetch_detail.
  erewrite bind_ok by (unfold getitem; rewrite Hl; reflexivity).
  erewrite bind_ok by reflexivity.
  erewrite bind_ok by (unfold getitem; simpl; rewrite Hl; reflexivity).
  unfold bind at 1. unfold command at 1. simpl.
  destruct (driver_get link (world s)) as [[u|e] w'].
  - match goal with |- context [trace (?m ?s2).2] =>
      assert (Hk : preserves trace_grows m) by pres;
      destruct (Hk s2) as [t Ht]; rewrite Ht
    end.
    simpl. exists t. rewrite <- !app_assoc. reflexivity.
  - simpl. exists []. rewrite <- !app_assoc. reflexivity.
Qed.

Lemma needs_detail_iff (jd : job) title :
  jd !! "title" = Some title ->
  needs_detail jd = true
  <-> title = "" \/ Py.len title < 5 \/ Py.startswith "Position" title = true.
Proof.
  intros H. unfold needs_detail. rewrite H.
  rewrite !orb_true_iff, Nat.ltb_lt, negb_true_iff.
  split; (intros [[Ht|Hn]|Hp]; [left; destruct title; [reflexivity | discriminate]
                                | tauto | tauto])
         || idtac.
  intros [Ht|[Hn|Hp]]; [left; left; subst; reflexivity | tauto | tauto].
Qed.

(** What the [except] of the detour leaves as title. *)
Definition title_or_fallback (known : option string) (link : string) : string :=
  match known with
  | Some title =>
      if Py.truthy title then title else "Position " +:+ Py.last_segment "/" link
  | None => "Position " +:+ Py.last_segment "/" link
  end.

Lemma refine_title_failed s e s1 link :
  job_data s !! "link" = Some link ->
  needs_detail (job_data s) = true ->
  fetch_detail s = (Raise e, s1) ->
  (refine_title s).1 = Ok tt
  /\ job_data (refine_title s).2 !! "title"
     = Some (title_or_fallback (job_data s1 !! "title") link).
Proof.
  intros Hl Hn Hf.
  assert (Hl1 : job_data s1 !! "link" = Some link).
  { pose proof (sk_link_fetch_detail s) as Hk. rewrite Hf in Hk. simpl in Hk.
    unfold same_key in Hk. congruence. }
  unfold refine_title. erewrite bind_ok by reflexivity. rewrite Hn.
  unfold try_except. rewrite Hf. unfold detail_failed.
  erewrite bind_ok by reflexivity. erewrite bind_ok by reflexivity. simpl.
  unfold title_or_fallback.
  destruct (job_data s1 !! "title") as [title|] eqn:Ht; simpl.
  - destruct (Py.truthy title); simpl.
    + split; [reflexivity | exact Ht].
    + erewrite bind_ok by (unfold getitem; simpl; rewrite Hl1; reflexivity).
      simpl. rewrite lookup_insert_eq. split; reflexivity.
  - erewrite bind_ok by (unfold getitem; simpl; rewrite Hl1; reflexivity).
    simpl. rewrite lookup_insert_eq. split; reflexivity.
Qed.

(** When the detail page cannot be loaded, the detour fails before it has
    touched the record. *)
Lemma fetch_detail_load_failure s link e w' :
  job_data s !! "link" = Some link ->
  driver_get link (world s) = (Raise e, w') ->
  exists s1, fetch_detail s = (Raise e, s1) /\ job_data s1 = job_data s.
Proof.
  intros Hl Hd. unfold fetch_detail.
  erewrite bind_ok by (unfold getitem; rewrite Hl; reflexivity).
  erewrite bind_ok by reflexivity.
  erewrite bind_ok by (unfold getitem; simpl; rewrite Hl; reflexivity).
  unfold bind at 1. unfold command at 1. simpl. rewrite Hd.
  eexists. split; reflexivity.
Qed.

End Detail.

Module DetailScenario.

(** The record of the first candidate of [Scenario.listing] as the title
    step leaves it. *)
Definition record : job :=
  <["title" := "Dev"]> (<["link" := "https://jobs.greenclimate.fund/job/77"]> ∅).

Definition before : @state Scenario.env :=
  @mkState Scenario.env Fixture.blank [] [] record.

(** A title of four characters, one of them two bytes long. *)
Definition accented : @state Scenario.env :=
  @mkState Scenario.env Fixture.blank [] []
    (<["title" := "Café"]> (<["link" := "https://jobs.greenclimate.fund/job/78"]> ∅)).

End DetailScenario.

(** C1, as stated, fails: in the run on [Scenario.site] the first candidate
    has the title "Dev" (shorter than 5 characters), its detail page cannot
    be loaded, and the record's final title is still "Dev". *)
Lemma C1_counterexample :
  exists j, Scenario.run_jobs !! 0%nat = Some j
    /\ j !! "link" = Some "https://jobs.greenclimate.fund/job/77"
    /\ In (DriverGet "https://jobs.greenclimate.fund/job/77") (trace Scenario.run_state)
    /\ In (Print "  Could not fetch detail page: timeout") (trace Scenario.run_state)
    /\ j !! "title" = Some "Dev"
    /\ j !! "title"
       <> Some ("Position " +:+ Py.last_segment "/" "https://jobs.greenclimate.fund/job/77").
Proof.
  eexists. split; [vm_compute; reflexivity|].
  split; [vm_compute; reflexivity|].
  split; [vm_compute; tauto|]. split; [vm_compute; tauto|].
  split; [vm_compute; reflexivity|]. vm_compute. discriminate.
Qed.

(** C1, amended. For every candidate whose extracted title is empty,
    shorter than 5 characters, or starts with "Position", the extractor
    attempts a detail-page lookup (it prints the "Fetching details" line
    and navigates to the record's link); when that lookup fails, the title
    the record has at that moment is kept if it is non-empty, and only an
    empty title is replaced by "Position " followed by the trailing path
    segment of the link; in particular, when the detail page cannot be
    loaded, a non-empty extracted title stays as it was. *)
Theorem C1_detail_lookup {E : Env} (s : state) (link title : string) :
  job_data s !! "link" = Some link ->
  job_data s !! "title" = Some title ->
  title = "" \/ Py.len title < 5 \/ Py.startswith "Position" title = true ->
  (exists rest,
     trace (refine_title s).2
     = trace s ++ Print ("  Fetching details for job " +:+ Py.last_segment "/" link +:+ "...")
                  :: DriverGet link :: rest)
  /\ (forall e s1,
        fetch_detail s = (Raise e, s1) ->
        (refine_title s).1 = Ok tt
        /\ job_data (refine_title s).2 !! "title"
           = Some (match job_data s1 !! "title" with
                   | Some known =>
                       if Py.truthy known then known
                       else "Position " +:+ Py.last_segment "/" link
                   | None => "Position " +:+ Py.last_segment "/" link
                   end))
  /\ (forall e w',
        driver_get link (world s) = (Raise e, w') ->
        job_data (refine_title s).2 !! "title"
        = Some (if Py.truthy title then title
                else "Position " +:+ Py.last_segment "/" link)).
Proof.
  intros Hl Ht Hc.
  assert (Hn : needs_detail (job_data s) = true)
    by (apply (needs_detail_iff _ _ Ht); exact Hc).
  split; [| split].
  - destruct (fetch_detail_attempt s link Hl) as [rest Hr].
    unfold refine_title. erewrite bind_ok by reflexivity. rewrite Hn.
    unfold try_except. destruct (fetch_detail s) as [[u|e] s1] eqn:Hf; simpl in *.
    + exists rest. exact Hr.
    + destruct (tg_detail_failed e s1) as [t Hg]. rewrite Hg, Hr.
      exists (rest ++ t). rewrite <- app_assoc. reflexivity.
  - intros e s1 Hf. exact (refine_title_failed s e s1 link Hl Hn Hf).
  - intros e w' Hd.
    destruct (fetch_detail_load_failure s link e w' Hl Hd) as (s1 & Hf & Hj).
    destruct (refine_title_failed s e s1 link Hl Hn Hf) as [_ H].
    rewrite H, Hj, Ht. reflexivity.
Qed.

Lemma C1_witness :
  job_data (@refine_title Scenario.env DetailScenario.before).2 !! "title" = Some "Dev"
  /\ (String.length "Café" = 5 /\ Py.len "Café" = 4)
  /\ In (DriverGet "https://jobs.greenclimate.fund/job/78")
        (trace (@refine_title Scenario.env DetailScenario.accented).2)
  /\ job_data (@refine_title Scenario.env DetailScenario.accented).2 !! "title" = Some "Café".
Proof.
  destruct (@C1_detail_lookup Scenario.env DetailScenario.before
              "https://jobs.greenclimate.fund/job/77" "Dev") as (_ & _ & H);
    [vm_compute; reflexivity | vm_compute; reflexivity | right; left; vm_compute; lia |].
  destruct (@C1_detail_lookup Scenario.env DetailScenario.accented
              "https://jobs.greenclimate.fund/job/78" "Café") as ([rest Hr] & _ & H');
    [vm_compute; reflexivity | vm_compute; reflexivity | right; left; vm_compute; lia |].
  split; [exact (H (Exception "timeout") Fixture.blank eq_refl)|].
  split; [split; reflexivity|].
  split; [rewrite Hr; simpl; right; left; reflexivity|].
  exact (H' (Exception "timeout") Fixture.blank eq_refl).
Defined.
